(** * app/protocol_filter.ts: the [file:] protocol filter

    A shallow embedding of [_eliminateAllAfterCharacter], [_urlToPath] and
    the request handler built by [_createFileHandler], followed by the
    properties of the URL decoder, the canonicalisation step and the
    allow-list check.

    Strings are sequences of code units.  The embedding uses the Standard
    Library's [string]; its 8-bit characters stand for the code units
    U+0000..U+00FF.  The functions the module imports from the platform
    ([path], [fs], [decodeURIComponent]) and from [./attachments] are the
    fields of two interfaces, [Host] and [Attachments].  A handler's
    result is what it wrote to the console together with the response it
    returned or the exception it threw: [new Response] throws for a
    status outside 200..599, and the handlers call it with -10 and
    -300. *)

From Stdlib Require Import ZArith Bool List Ascii String Lia Permutation.
Import ListNotations.

Local Open Scope string_scope.
Local Open Scope Z_scope.

(** ** Completions: a value, or a thrown exception *)

(** The value a [catch] clause receives.  The handler only looks at its
    [message] property, and only when that property is a string. *)
Record Thrown := mkThrown { message : option string }.

Inductive completion (A : Type) : Type :=
| Normal (a : A)
| Throw (err : Thrown).

Arguments Normal {A} a.
Arguments Throw {A} err.

Definition bind {A B : Type} (c : completion A) (k : A -> completion B)
  : completion B :=
  match c with
  | Normal a => k a
  | Throw err => Throw err
  end.

Notation "x <- c ;; k" := (bind c (fun x => k))
  (at level 61, c at next level, right associativity).

(** ** Console output

    A computation that writes lines to the console, oldest first, and
    then returns a value or throws. *)

Definition logged (A : Type) : Type := (list string * completion A)%type.

Definition lift {A : Type} (c : completion A) : logged A := ([], c).

(** [console.log(line)]. *)
Definition console_log (line : string) : logged unit := ([line], Normal tt).

Definition bindLogged {A B : Type} (m : logged A) (k : A -> logged B)
  : logged B :=
  match snd m with
  | Normal a => (fst m ++ fst (k a), snd (k a))%list
  | Throw err => (fst m, Throw err)
  end.

Notation "x <<- m ;; k" := (bindLogged m (fun x => k))
  (at level 61, m at next level, right associativity).

(** [try { m } catch (err) { handler err }]: what [m] wrote stays
    written. *)
Definition tryCatch {A : Type} (m : logged A) (handler : Thrown -> logged A)
  : logged A :=
  match snd m with
  | Normal _ => m
  | Throw err => (fst m ++ fst (handler err), snd (handler err))%list
  end.

(** ** String primitives of the language *)

Module JsString.

(** [s.startsWith(searchString)]. *)
Fixpoint startsWith (s searchString : string) {struct searchString}
  : bool :=
  match searchString with
  | EmptyString => true
  | String c rest =>
      match s with
      | EmptyString => false
      | String d s' => if Ascii.eqb c d then startsWith s' rest else false
      end
  end.

(** First position, counted from [pos], at which [searchString] occurs
    in [s]; [-1] when there is none. *)
Fixpoint indexOfFrom (s searchString : string) (pos : Z) : Z :=
  if startsWith s searchString then pos
  else match s with
       | EmptyString => -1
       | String _ s' => indexOfFrom s' searchString (pos + 1)
       end.

(** [s.indexOf(searchString)]. *)
Definition indexOf (s searchString : string) : Z :=
  indexOfFrom s searchString 0.

(** An index argument of [slice], brought into [0 .. len]: a negative
    index counts from the end. *)
Definition relativeIndex (len i : Z) : Z :=
  if i <? 0 then Z.max (len + i) 0 else Z.min i len.

(** [s.slice(start, end)]; [end_ = None] is the call with one argument. *)
Definition slice (s : string) (start : Z) (end_ : option Z) : string :=
  let len := Z.of_nat (String.length s) in
  let from := relativeIndex len start in
  let to := match end_ with
            | None => len
            | Some e => relativeIndex len e
            end in
  substring (Z.to_nat from) (Z.to_nat (Z.max (to - from) 0)) s.

(** Lower-casing of one code unit in U+0000..U+00FF: the letters A-Z and
    the Latin-1 capitals U+00C0..U+00DE, the multiplication sign U+00D7
    apart, move up by 32. *)
Definition toLowerCaseUnit (c : ascii) : ascii :=
  let n := N_of_ascii c in
  if ((65 <=? n) && (n <=? 90))%N
     || ((192 <=? n) && (n <=? 222) && negb (n =? 215))%N
  then ascii_of_N (n + 32)
  else c.

(** [s.toLowerCase()]. *)
Fixpoint toLowerCase (s : string) : string :=
  match s with
  | EmptyString => EmptyString
  | String c s' => String (toLowerCaseUnit c) (toLowerCase s')
  end.

(** [array.join(separator)] on an array of strings; [`${array}`] is
    [join array ","]. *)
Fixpoint join (array : list string) (separator : string) : string :=
  match array with
  | [] => EmptyString
  | [x] => x
  | x :: rest => x ++ separator ++ join rest separator
  end.

End JsString.

Import JsString.

(** ** The platform and the sibling module *)

(** What the module imports from the runtime.  [decodeURIComponent] throws
    on a malformed escape sequence and [realpathSync] on any filesystem
    error; [normalize], [isAbsolute] and [existsSync] return on every
    string.  [normalize] and [isAbsolute] belong to the platform the
    process runs on: they do not see the handler's [isWindows] flag.
    [rangeError status] and [nullBodyError status] are the exceptions the
    [Response] constructor throws, a [RangeError] and a [TypeError]; their
    messages are the runtime's. *)
Class Host := {
  decodeURIComponent : string -> completion string;
  normalize : string -> string;
  isAbsolute : string -> bool;
  existsSync : string -> bool;
  realpathSync : string -> completion string;
  rangeError : Z -> Thrown;
  nullBodyError : Z -> Thrown
}.

(** The path getters of [./attachments], each from the user data path to
    one of its subdirectories. *)
Class Attachments := {
  getAvatarsPath : string -> string;
  getBadgesPath : string -> string;
  getDraftPath : string -> string;
  getPath : string -> string;
  getStickersPath : string -> string;
  getTempPath : string -> string;
  getUpdateCachePath : string -> string
}.

(** ** Requests and responses *)

(** [request.url] is a string, or missing. *)
Record Request := mkRequest { url : option string }.

(** The body of a response: [JSON.stringify({ path })]. *)
Inductive Body := JsonPath (path : string).

(** A response that has been constructed: its body and its status. *)
Record Response := mkResponse { body : option Body; status : Z }.

(** The status of a response constructed without options. *)
Definition defaultStatus : Z := 200.

(** The statuses that allow no body. *)
Definition isNullBodyStatus (status : Z) : bool :=
  (status =? 101) || (status =? 103) || (status =? 204) || (status =? 205)
  || (status =? 304).

(** [new Response(body, { status })]; [init = None] is the call with one
    argument.  The constructor throws a [RangeError] for a status outside
    200..599, and a [TypeError] for a body given with a status that allows
    none. *)
Definition newResponse {host : Host} (body : option Body) (init : option Z)
  : completion Response :=
  let status := match init with
                | Some status => status
                | None => defaultStatus
                end in
  if (status <? 200) || (599 <? status) then Throw (rangeError status)
  else match body with
       | Some _ =>
           if isNullBodyStatus status then Throw (nullBodyError status)
           else Normal (mkResponse body status)
       | None => Normal (mkResponse body status)
       end.

(** A handler's result: the lines written with [console.log], and the
    response returned or the exception thrown. *)
Definition Handled : Type := logged Response.

(** ** The source *)

Definition _eliminateAllAfterCharacter (string_ character : string) : string :=
  let index := indexOf string_ character in
  if index <? 0 then string_
  else slice string_ 0 (Some index).

Record UrlToPathOptions := mkOptions { isWindows : bool }.

Section Source.

Context {host : Host} {attachments : Attachments}.

Definition _urlToPath (targetUrl : string) (options : option UrlToPathOptions)
  : completion string :=
  decoded <- decodeURIComponent targetUrl ;;
  let withoutScheme :=
    if startsWith decoded "//" then decoded
    else slice decoded
           (match options with
            | Some o => if isWindows o then 8 else 7
            | None => 7
            end) None in
  let withoutQuerystring := _eliminateAllAfterCharacter withoutScheme "?" in
  let withoutHash := _eliminateAllAfterCharacter withoutQuerystring "#" in
  Normal withoutHash.

(** The [for (const root of allowedRoots)] loop: [Some] when an
    iteration reaches its [return], with the completion of the
    [new Response] there; [None] when the loop runs to its end. *)
Fixpoint forAllowedRoots (isWindows : bool) (properCasing realPath : string)
    (allowedRoots : list string) : option (completion Response) :=
  match allowedRoots with
  | [] => None
  | root :: rest =>
      if startsWith properCasing
           (if isWindows then toLowerCase root else root)
      then Some (newResponse (Some (JsonPath realPath)) None)
      else forAllowedRoots isWindows properCasing realPath rest
  end.

(** The body of the [try] block. *)
Definition tryBlock (isWindows : bool) (allowedRoots : list string)
    (requestUrl : string) : logged Response :=
  targetPath <<- lift (_urlToPath requestUrl (Some (mkOptions isWindows))) ;;
  let target := normalize targetPath in
  realPath <<- lift (if existsSync target then realpathSync target
                     else Normal target) ;;
  let properCasing := if isWindows then toLowerCase realPath else realPath in
  if negb (isAbsolute realPath) then
    _ <<- console_log ("Warning: denying request to non-absolute path '"
                         ++ realPath ++ "'") ;;
    lift (newResponse None (Some (-10)))
  else
    match forAllowedRoots isWindows properCasing realPath allowedRoots with
    | Some returned => lift returned
    | None =>
        _ <<- console_log ("Warning: denying request to path '" ++ realPath
                             ++ "' (allowedRoots: '" ++ join allowedRoots ","
                             ++ "')") ;;
        lift (newResponse None (Some (-10)))
    end.

(** The [catch] clause. *)
Definition catchClause (err : Thrown) : logged Response :=
  let errorMessage :=
    match message err with
    | Some m => m
    | None => "no error message"
    end in
  _ <<- console_log ("Warning: denying request because of an error: "
                       ++ errorMessage) ;;
  lift (newResponse None (Some (-10))).

(** The closure [_createFileHandler] returns, over the values it
    captures. *)
Definition fileHandler (isWindows : bool) (allowedRoots : list string)
    (request : Request) : Handled :=
  match url request with
  | None | Some EmptyString => lift (newResponse None (Some (-300)))
  | Some requestUrl =>
      tryCatch (tryBlock isWindows allowedRoots requestUrl) catchClause
  end.

(** The argument of [_createFileHandler]; [fhIsWindows] is its
    [isWindows] property. *)
Record FileHandlerOptions := mkFileHandlerOptions {
  userDataPath : string;
  installPath : string;
  fhIsWindows : bool
}.

Definition allowedRootsOf (userDataPath installPath : string) : list string :=
  [ userDataPath;
    installPath;
    getAvatarsPath userDataPath;
    getBadgesPath userDataPath;
    getDraftPath userDataPath;
    getPath userDataPath;
    getStickersPath userDataPath;
    getTempPath userDataPath;
    getUpdateCachePath userDataPath ].

Definition _createFileHandler (o : FileHandlerOptions) : Request -> Handled :=
  let allowedRoots := allowedRootsOf (userDataPath o) (installPath o) in
  fileHandler (fhIsWindows o) allowedRoots.

Definition _disabledHandler (_request : Request) : completion Response :=
  newResponse None (Some (-10)).

End Source.

(** ** Decisions *)

(** The two outcomes of a request, read off a returned response: a body
    carrying a path, or no body and an error code. *)
Inductive Decision :=
| Allowed (path : string)
| Denied (code : Z).

Definition decisionOf (r : Response) : Decision :=
  match body r with
  | Some (JsonPath p) => Allowed p
  | None => Denied (status r)
  end.

(** The response part of a handler's result: returned, or not, when the
    handler throws. *)
Definition responseOf (h : Handled) : completion Response := snd h.

(** The decision the handler returns, when it returns. *)
Definition decide {host : Host} (isWindows : bool) (allowedRoots : list string)
    (request : Request) : completion Decision :=
  match responseOf (fileHandler isWindows allowedRoots request) with
  | Normal response => Normal (decisionOf response)
  | Throw err => Throw err
  end.

(** ** A POSIX host

    An executable instance of [Host], used to run the handler on concrete
    requests: the [path.posix] functions over a filesystem given as a
    table. *)

Module Posix.

Definition slash : ascii := "/"%char.

(** The segments of a path between separators; [a//b] has an empty
    segment. *)
Fixpoint split (s : string) : list string :=
  match s with
  | EmptyString => [EmptyString]
  | String c s' =>
      if Ascii.eqb c slash then EmptyString :: split s'
      else match split s' with
           | seg :: rest => String c seg :: rest
           | [] => [String c EmptyString]
           end
  end.

(** [normalizeString] on segments: empty and [.] segments go, [..]
    removes the segment before it, and stays (when [allowAboveRoot])
    if there is none left to remove.  [res] holds the segments kept so
    far, last one first. *)
Fixpoint normalizeSegments (allowAboveRoot : bool) (segs res : list string)
  : list string :=
  match segs with
  | [] => rev res
  | seg :: rest =>
      if (seg =? EmptyString)%string || (seg =? ".")%string then
        normalizeSegments allowAboveRoot rest res
      else if (seg =? "..")%string then
        match res with
        | top :: res' =>
            if (top =? "..")%string
            then normalizeSegments allowAboveRoot rest
                   (if allowAboveRoot then ".." :: res else res)
            else normalizeSegments allowAboveRoot rest res'
        | [] =>
            normalizeSegments allowAboveRoot rest
              (if allowAboveRoot then [".."] else [])
        end
      else normalizeSegments allowAboveRoot rest (seg :: res)
  end.

Definition firstIsSlash (path : string) : bool :=
  match path with
  | String c _ => Ascii.eqb c slash
  | EmptyString => false
  end.

Fixpoint lastIsSlash (path : string) : bool :=
  match path with
  | EmptyString => false
  | String c EmptyString => Ascii.eqb c slash
  | String _ s' => lastIsSlash s'
  end.

(** [path.posix.isAbsolute]. *)
Definition isAbsolute (path : string) : bool := firstIsSlash path.

(** [path.posix.normalize]. *)
Definition normalize (path : string) : string :=
  match path with
  | EmptyString => "."
  | _ =>
      let absolute := firstIsSlash path in
      let trailingSeparator := lastIsSlash path in
      let res := join (normalizeSegments (negb absolute) (split path) []) "/" in
      match res with
      | EmptyString =>
          if absolute then "/"
          else if trailingSeparator then "./" else "."
      | _ =>
          let res' := if trailingSeparator then res ++ "/" else res in
          if absolute then "/" ++ res' else res'
      end
  end.

Definition hexValue (c : ascii) : option N :=
  let n := N_of_ascii c in
  if ((48 <=? n) && (n <=? 57))%N then Some (n - 48)%N
  else if ((65 <=? n) && (n <=? 70))%N then Some (n - 55)%N
  else if ((97 <=? n) && (n <=? 102))%N then Some (n - 87)%N
  else None.

Definition uriMalformed : Thrown := mkThrown (Some "URI malformed").

(** Percent-decoding of the escapes [%00] to [%7F].  A [%] that is not
    followed by two hexadecimal digits is malformed; so is, in this
    model, an escape above [%7F], whose decoding needs the bytes that
    follow it. *)
Fixpoint decodeURIComponent (s : string) : completion string :=
  match s with
  | EmptyString => Normal EmptyString
  | String c s' =>
      if Ascii.eqb c "%"%char then
        match s' with
        | String h (String l s'') =>
            match hexValue h, hexValue l with
            | Some hi, Some lo =>
                if (hi <? 8)%N then
                  rest <- decodeURIComponent s'' ;;
                  Normal (String (ascii_of_N (16 * hi + lo)) rest)
                else Throw uriMalformed
            | _, _ => Throw uriMalformed
            end
        | _ => Throw uriMalformed
        end
      else
        rest <- decodeURIComponent s' ;; Normal (String c rest)
  end.

(** The filesystem: the paths that are symbolic links, each with the
    path it points to, and the paths of the other files and
    directories. *)
Record FileSystem := mkFileSystem {
  symlinks : list (string * string);
  files : list string
}.

Fixpoint lookup (path : string) (table : list (string * string))
  : option string :=
  match table with
  | [] => None
  | (p, target) :: rest =>
      if (p =? path)%string then Some target else lookup path rest
  end.

Definition enoent : Thrown :=
  mkThrown (Some "ENOENT: no such file or directory").
Definition eloop : Thrown :=
  mkThrown (Some "ELOOP: too many symbolic links encountered").

(** Follows links from [path] to a file that is not a link; [fuel]
    bounds the number of links followed.  Only a path that is itself an
    entry of the table is a link: a link in the middle of a path, a
    relative target or a trailing separator is not resolved. *)
Fixpoint resolve (fs : FileSystem) (fuel : nat) (path : string)
  : completion string :=
  match lookup path (symlinks fs) with
  | Some target =>
      match fuel with
      | O => Throw eloop
      | S fuel' => resolve fs fuel' target
      end
  | None =>
      if existsb (String.eqb path) (files fs) then Normal path
      else Throw enoent
  end.

Definition maxLinks : nat := 40.

Definition realpathSync (fs : FileSystem) (path : string)
  : completion string :=
  resolve fs maxLinks path.

Definition existsSync (fs : FileSystem) (path : string) : bool :=
  match realpathSync fs path with
  | Normal _ => true
  | Throw _ => false
  end.

(** The double quote, as a string. *)
Definition quote : string := String (ascii_of_nat 34) EmptyString.

(** The exceptions of the [Response] constructor, with the messages of
    the Node runtime. *)
Definition rangeError (status : Z) : Thrown :=
  mkThrown (Some ("init[" ++ quote ++ "status" ++ quote
                    ++ "] must be in the range of 200 to 599, inclusive.")).

Definition nullBodyError (status : Z) : Thrown :=
  mkThrown (Some "Response constructor: Invalid response status code").

Definition host (fs : FileSystem) : Host :=
  Build_Host decodeURIComponent normalize isAbsolute
    (existsSync fs) (realpathSync fs) rangeError nullBodyError.

(** Modelled from the spec: the path getters of [./attachments] are not
    part of the source; each names one subdirectory of the user data
    root (avatars, badges, drafts, attachments, stickers, temp files,
    update cache). *)
Definition subdirectory (name userDataPath : string) : string :=
  normalize (userDataPath ++ "/" ++ name).

Definition attachments : Attachments := {|
  getAvatarsPath := subdirectory "avatars";
  getBadgesPath := subdirectory "badges";
  getDraftPath := subdirectory "drafts";
  getPath := subdirectory "attachments";
  getStickersPath := subdirectory "stickers";
  getTempPath := subdirectory "temp";
  getUpdateCachePath := subdirectory "update-cache"
|}.

(** [_createFileHandler] on this host: the decision returned, or the
    exception thrown. *)
Definition handle (fs : FileSystem) (o : FileHandlerOptions)
    (requestUrl : option string) : completion Decision :=
  match responseOf
          (@_createFileHandler (host fs) attachments o (mkRequest requestUrl))
  with
  | Normal response => Normal (decisionOf response)
  | Throw err => Throw err
  end.

End Posix.

(** ** The spec's reading of the string operations

    What the description of the decoder says in words, written without
    [indexOf] and [slice], to compare the source against. *)

(** [s] up to, and without, the first occurrence of the unit [c]; all of
    [s] when [c] does not occur. *)
Fixpoint truncateAtFirst (c : ascii) (s : string) : string :=
  match s with
  | EmptyString => EmptyString
  | String d s' => if Ascii.eqb c d then EmptyString
                   else String d (truncateAtFirst c s')
  end.

(** [s] without its first [n] units. *)
Fixpoint stripUnits (n : nat) (s : string) : string :=
  match n, s with
  | O, _ => s
  | S _, EmptyString => EmptyString
  | S n', String _ s' => stripUnits n' s'
  end.

(** The first [n] units of [s]. *)
Fixpoint firstUnits (n : nat) (s : string) : string :=
  match n, s with
  | O, _ => EmptyString
  | S _, EmptyString => EmptyString
  | S n', String c s' => String c (firstUnits n' s')
  end.

(** Whether the unit [c] occurs in [s]. *)
Fixpoint occurs (c : ascii) (s : string) : bool :=
  match s with
  | EmptyString => false
  | String d s' => Ascii.eqb c d || occurs c s'
  end.

(** The string made of the single unit [c]. *)
Definition unit (c : ascii) : string := String c EmptyString.

(** Two strings that differ at most in the case of their letters. *)
Fixpoint sameIgnoringCase (a b : string) : bool :=
  match a, b with
  | EmptyString, EmptyString => true
  | String c a', String d b' =>
      Ascii.eqb (toLowerCaseUnit c) (toLowerCaseUnit d)
      && sameIgnoringCase a' b'
  | _, _ => false
  end.

(** Whether the first two units of [s] are both [/]. *)
Definition beginsWithTwoSlashes (s : string) : bool :=
  match s with
  | String c (String d _) => Ascii.eqb c "/" && Ascii.eqb d "/"
  | _ => false
  end.

(** The decoder as the description words it, after percent-decoding. *)
Definition specUrlToPath (isWindows : bool) (decoded : string) : string :=
  let withoutScheme :=
    if beginsWithTwoSlashes decoded then decoded
    else stripUnits (if isWindows then 8 else 7) decoded in
  truncateAtFirst "#" (truncateAtFirst "?" withoutScheme).

(** ** The stages of the handler

    The description splits the handler into a canonicaliser and an
    allow-list validator.  The source has them inline; these definitions
    name what the theorems speak of. *)

(** The case folding applied to both sides of the root comparison. *)
Definition caseFold (isWindows : bool) (s : string) : string :=
  if isWindows then toLowerCase s else s.

(** The test one iteration of the loop makes. *)
Definition matchesRoot (isWindows : bool) (realPath root : string) : bool :=
  startsWith (caseFold isWindows realPath) (caseFold isWindows root).

(** The response of an allowed request. *)
Definition allowedResponse (realPath : string) : Response :=
  mkResponse (Some (JsonPath realPath)) defaultStatus.

(** The three console lines. *)
Definition nonAbsoluteLine (realPath : string) : string :=
  "Warning: denying request to non-absolute path '" ++ realPath ++ "'".

Definition missLine (realPath : string) (allowedRoots : list string)
  : string :=
  "Warning: denying request to path '" ++ realPath
    ++ "' (allowedRoots: '" ++ join allowedRoots "," ++ "')".

Definition catchLine (err : Thrown) : string :=
  "Warning: denying request because of an error: "
    ++ match message err with
       | Some m => m
       | None => "no error message"
       end.

Section Stages.

Context {host : Host}.

(** Normalise, then resolve links when the path exists. *)
Definition canonicalize (targetPath : string) : completion string :=
  let target := normalize targetPath in
  if existsSync target then realpathSync target else Normal target.

(** The canonical path of a request URL, when decoding and resolution
    both return. *)
Definition resolvesTo (isWindows : bool) (requestUrl realPath : string)
  : Prop :=
  exists targetPath,
    _urlToPath requestUrl (Some (mkOptions isWindows)) = Normal targetPath
    /\ canonicalize targetPath = Normal realPath.

End Stages.

(** Hosts on which absoluteness is decided by the start of a path and not
    by the case of its letters: what extends an absolute path is
    absolute. *)
Class HostLaws (host : Host) : Prop := {
  isAbsolute_extends : forall path root,
    isAbsolute root = true -> startsWith path root = true ->
    isAbsolute path = true;
  isAbsolute_toLowerCase : forall path,
    isAbsolute (toLowerCase path) = isAbsolute path
}.

(** The causes of a denial for a request that carries a URL. *)
Inductive DenialCause :=
| DecodeFailure
| CanonicalizationFailure
| NonAbsolutePath
| AllowListMiss.

Inductive deniedFor {host : Host} (isWindows : bool)
    (allowedRoots : list string) (requestUrl : string)
  : DenialCause -> Prop :=
| denied_decode (err : Thrown) :
    _urlToPath requestUrl (Some (mkOptions isWindows)) = Throw err ->
    deniedFor isWindows allowedRoots requestUrl DecodeFailure
| denied_canonicalize (targetPath : string) (err : Thrown) :
    _urlToPath requestUrl (Some (mkOptions isWindows)) = Normal targetPath ->
    canonicalize targetPath = Throw err ->
    deniedFor isWindows allowedRoots requestUrl CanonicalizationFailure
| denied_relative (realPath : string) :
    resolvesTo isWindows requestUrl realPath ->
    isAbsolute realPath = false ->
    deniedFor isWindows allowedRoots requestUrl NonAbsolutePath
| denied_miss (realPath : string) :
    resolvesTo isWindows requestUrl realPath ->
    isAbsolute realPath = true ->
    (forall root, In root allowedRoots ->
                  matchesRoot isWindows realPath root = false) ->
    deniedFor isWindows allowedRoots requestUrl AllowListMiss.

(** The flag [_urlToPath] reads from its optional argument. *)
Definition flagOf (options : option UrlToPathOptions) : bool :=
  match options with
  | Some o => isWindows o
  | None => false
  end.

(** ** Concrete requests on the POSIX host *)

Module Scenario.

(** No file exists: canonicalisation is normalisation. *)
Definition emptyDisk : Posix.FileSystem := Posix.mkFileSystem [] [].

(** [/data/app/link] is a symbolic link to [/etc/passwd]. *)
Definition linkedDisk : Posix.FileSystem :=
  Posix.mkFileSystem
    [("/data/app/link", "/etc/passwd")]
    ["/etc/passwd"; "/data/app/a.png"].

Definition options : FileHandlerOptions :=
  mkFileHandlerOptions "/data/app" "/opt/app" false.

Definition windowsOptions : FileHandlerOptions :=
  mkFileHandlerOptions "/Users/bob/Signal" "/opt/app" true.

Definition roots : list string :=
  @allowedRootsOf Posix.attachments "/data/app" "/opt/app".

Definition windowsRoots : list string :=
  @allowedRootsOf Posix.attachments "/Users/bob/Signal" "/opt/app".

End Scenario.

(** ** Occurrences of a search string *)

(** The number of units before the first occurrence of [needle] in [s],
    when there is one: [indexOf] without its [-1]. *)
Fixpoint firstOccurrence (s needle : string) : option nat :=
  if startsWith s needle then Some O
  else match s with
       | EmptyString => None
       | String _ s' => option_map S (firstOccurrence s' needle)
       end.

(** The length of the prefix [_urlToPath] removes. *)
Definition schemeLength (options : option UrlToPathOptions) : nat :=
  if flagOf options then 8%nat else 7%nat.

(** ** Facts about the string primitives *)

Section StringFacts.

Lemma startsWith_append (p rest : string) :
  startsWith (p ++ rest) p = true.
Proof.
  induction p as [|c p IH]; simpl; [reflexivity|].
  now rewrite Ascii.eqb_refl.
Qed.

Lemma startsWith_split (s p : string) :
  startsWith s p = true -> exists rest, s = p ++ rest.
Proof.
  revert s; induction p as [|c p IH]; intros s H; simpl in *.
  - now exists s.
  - destruct s as [|d s]; [discriminate|].
    destruct (Ascii.eqb_spec c d) as [->|]; [|discriminate].
    destruct (IH _ H) as [rest ->]. now exists rest.
Qed.

Lemma startsWith_iff (s p : string) :
  startsWith s p = true <-> exists rest, s = p ++ rest.
Proof.
  split; [apply startsWith_split|].
  intros [rest ->]. apply startsWith_append.
Qed.

Lemma append_empty_r (s : string) : s ++ EmptyString = s.
Proof. induction s; simpl; congruence. Qed.

Lemma startsWith_refl (s : string) : startsWith s s = true.
Proof.
  rewrite <- (append_empty_r s) at 1. apply startsWith_append.
Qed.

Lemma toLowerCase_append (a b : string) :
  toLowerCase (a ++ b) = toLowerCase a ++ toLowerCase b.
Proof. induction a; simpl; congruence. Qed.

Lemma sameIgnoringCase_toLowerCase (a b : string) :
  sameIgnoringCase a b = true <-> toLowerCase a = toLowerCase b.
Proof.
  revert b; induction a as [|c a IH]; intros [|d b]; simpl;
    try (split; [discriminate | congruence]); [tauto|].
  rewrite andb_true_iff, IH, Ascii.eqb_eq.
  split; [intros [-> ->]; reflexivity | intros H; now inversion H].
Qed.

Lemma substring_firstUnits (n : nat) (s : string) :
  substring 0 n s = firstUnits n s.
Proof.
  revert s; induction n as [|n IH]; intros [|c s]; simpl;
    try reflexivity.
  now rewrite IH.
Qed.

Lemma substring_stripUnits (n : nat) (s : string) :
  substring (Nat.min n (String.length s))
    (String.length s - Nat.min n (String.length s)) s
  = stripUnits n s.
Proof.
  revert n; induction s as [|c s IH]; intros [|n]; simpl;
    try reflexivity.
  - f_equal. specialize (IH O). simpl in IH.
    now rewrite Nat.sub_0_r in IH.
  - apply IH.
Qed.

Lemma firstUnits_min (n : nat) (s : string) :
  firstUnits (Nat.min n (String.length s)) s = firstUnits n s.
Proof.
  revert s; induction n as [|n IH]; intros [|c s]; simpl;
    try reflexivity.
  now rewrite IH.
Qed.

(** [s.slice(n)] with [0 <= n] drops the first [n] units. *)
Lemma slice_from (s : string) (n : Z) :
  0 <= n -> slice s n None = stripUnits (Z.to_nat n) s.
Proof.
  intros Hn. unfold slice, relativeIndex.
  destruct (Z.ltb_spec n 0); [lia|].
  rewrite <- substring_stripUnits. f_equal; lia.
Qed.

(** [s.slice(0, n)] with [0 <= n] keeps the first [n] units. *)
Lemma slice_to (s : string) (n : Z) :
  0 <= n -> slice s 0 (Some n) = firstUnits (Z.to_nat n) s.
Proof.
  intros Hn. unfold slice, relativeIndex.
  destruct (Z.ltb_spec n 0); [lia|].
  change (0 <? 0) with false. cbv iota.
  rewrite <- firstUnits_min, <- substring_firstUnits.
  f_equal; lia.
Qed.

Lemma startsWith_unit (c : ascii) (s : string) :
  startsWith s (unit c)
  = match s with String d _ => Ascii.eqb c d | EmptyString => false end.
Proof.
  destruct s as [|d s]; simpl; [reflexivity|].
  now destruct (Ascii.eqb c d).
Qed.

(** [indexOf] for a single unit: the length of what precedes its first
    occurrence. *)
Lemma indexOfFrom_unit (c : ascii) (s : string) (pos : Z) :
  indexOfFrom s (unit c) pos
  = if occurs c s
    then pos + Z.of_nat (String.length (truncateAtFirst c s))
    else -1.
Proof.
  revert pos; induction s as [|d s IH]; intros pos.
  - reflexivity.
  - cbn [indexOfFrom]. rewrite startsWith_unit.
    cbn [occurs truncateAtFirst].
    destruct (Ascii.eqb c d); cbn [orb String.length].
    + lia.
    + rewrite IH. destruct (occurs c s); lia.
Qed.

Lemma firstUnits_truncateAtFirst (c : ascii) (s : string) :
  firstUnits (String.length (truncateAtFirst c s)) s = truncateAtFirst c s.
Proof.
  induction s as [|d s IH]; simpl; [reflexivity|].
  destruct (Ascii.eqb c d); simpl; congruence.
Qed.

Lemma truncateAtFirst_absent (c : ascii) (s : string) :
  occurs c s = false -> truncateAtFirst c s = s.
Proof.
  induction s as [|d s IH]; simpl; [reflexivity|].
  destruct (Ascii.eqb c d); simpl; [discriminate|].
  intros H. now rewrite IH.
Qed.

Lemma occurs_truncateAtFirst (c : ascii) (s : string) :
  occurs c (truncateAtFirst c s) = false.
Proof.
  induction s as [|d s IH]; simpl; [reflexivity|].
  destruct (Ascii.eqb c d) eqn:E; simpl; [reflexivity|].
  now rewrite E.
Qed.

Lemma truncateAtFirst_prefix (c : ascii) (s : string) :
  exists rest, s = truncateAtFirst c s ++ rest.
Proof.
  induction s as [|d s [rest IH]]; simpl.
  - now exists EmptyString.
  - destruct (Ascii.eqb c d); simpl.
    + now exists (String d s).
    + exists rest. congruence.
Qed.

(** The source's truncation, on a single unit, is the spec's. *)
Lemma eliminate_truncateAtFirst (s : string) (c : ascii) :
  _eliminateAllAfterCharacter s (unit c) = truncateAtFirst c s.
Proof.
  unfold _eliminateAllAfterCharacter, indexOf.
  rewrite indexOfFrom_unit.
  destruct (occurs c s) eqn:E.
  - destruct (Z.ltb_spec (0 + Z.of_nat (String.length (truncateAtFirst c s))) 0);
      [lia|].
    rewrite slice_to by lia.
    rewrite Z.add_0_l, Nat2Z.id.
    apply firstUnits_truncateAtFirst.
  - simpl. symmetry. now apply truncateAtFirst_absent.
Qed.

Lemma indexOf_unit_absent (c : ascii) (s : string) :
  indexOf s (unit c) = -1 <-> occurs c s = false.
Proof.
  unfold indexOf. rewrite indexOfFrom_unit.
  destruct (occurs c s); split; try reflexivity; try discriminate; lia.
Qed.

End StringFacts.

(** ** Facts about the handler *)

Section StageFacts.

Context {host : Host}.

Lemma newResponse_allowed (realPath : string) :
  newResponse (Some (JsonPath realPath)) None
  = Normal (allowedResponse realPath).
Proof. reflexivity. Qed.

(** The constructor refuses the two statuses the handlers pass. *)
Lemma newResponse_refused (body : option Body) (status : Z) :
  status < 200 -> newResponse body (Some status) = Throw (rangeError status).
Proof.
  intros H. unfold newResponse.
  destruct (Z.ltb_spec status 200); [reflexivity | lia].
Qed.

Lemma forAllowedRoots_existsb (isWindows : bool) (realPath : string)
    (allowedRoots : list string) :
  forAllowedRoots isWindows (caseFold isWindows realPath) realPath
    allowedRoots
  = if existsb (matchesRoot isWindows realPath) allowedRoots
    then Some (Normal (allowedResponse realPath))
    else None.
Proof.
  induction allowedRoots as [|root rest IH]; simpl; [reflexivity|].
  unfold matchesRoot at 1. unfold caseFold at 2.
  destruct (startsWith _ _); simpl; [reflexivity | exact IH].
Qed.

(** The [try] block when a stage throws: nothing is written. *)
Lemma tryBlock_decode_throws (isWindows : bool) (allowedRoots : list string)
    (requestUrl : string) (err : Thrown) :
  _urlToPath requestUrl (Some (mkOptions isWindows)) = Throw err ->
  tryBlock isWindows allowedRoots requestUrl = ([], Throw err).
Proof. intros H. unfold tryBlock. now rewrite H. Qed.

Lemma tryBlock_canonicalize_throws (isWindows : bool)
    (allowedRoots : list string) (requestUrl targetPath : string)
    (err : Thrown) :
  _urlToPath requestUrl (Some (mkOptions isWindows)) = Normal targetPath ->
  canonicalize targetPath = Throw err ->
  tryBlock isWindows allowedRoots requestUrl = ([], Throw err).
Proof.
  intros Hurl Hcanon. unfold tryBlock. rewrite Hurl.
  unfold canonicalize in Hcanon. cbn. now rewrite Hcanon.
Qed.

(** The [try] block once the canonical path is known. *)
Lemma tryBlock_resolved (isWindows : bool) (allowedRoots : list string)
    (requestUrl realPath : string) :
  resolvesTo isWindows requestUrl realPath ->
  tryBlock isWindows allowedRoots requestUrl
  = if isAbsolute realPath then
      if existsb (matchesRoot isWindows realPath) allowedRoots
      then ([], Normal (allowedResponse realPath))
      else ([missLine realPath allowedRoots], Throw (rangeError (-10)))
    else ([nonAbsoluteLine realPath], Throw (rangeError (-10))).
Proof.
  intros (targetPath & Hurl & Hcanon).
  unfold tryBlock. rewrite Hurl.
  unfold canonicalize in Hcanon. cbn [lift bindLogged fst snd].
  rewrite Hcanon. cbn [lift bindLogged fst snd app].
  destruct (isAbsolute realPath); cbn [negb].
  - fold (caseFold isWindows realPath).
    rewrite forAllowedRoots_existsb.
    destruct (existsb _ _); reflexivity.
  - reflexivity.
Qed.

(** Every request with a URL either resolves to a canonical path or has
    a stage that throws. *)
Lemma resolves_or_throws (isWindows : bool) (allowedRoots : list string)
    (requestUrl : string) :
  (exists realPath, resolvesTo isWindows requestUrl realPath)
  \/ (exists err, tryBlock isWindows allowedRoots requestUrl = ([], Throw err)).
Proof.
  destruct (_urlToPath requestUrl (Some (mkOptions isWindows)))
    as [targetPath|err] eqn:Hurl.
  - destruct (canonicalize targetPath) as [realPath|err] eqn:Hcanon.
    + left. exists realPath, targetPath. now split.
    + right. exists err. now apply tryBlock_canonicalize_throws with targetPath.
  - right. exists err. now apply tryBlock_decode_throws.
Qed.

Lemma fileHandler_present (isWindows : bool) (allowedRoots : list string)
    (requestUrl : string) :
  requestUrl <> EmptyString ->
  fileHandler isWindows allowedRoots (mkRequest (Some requestUrl))
  = tryCatch (tryBlock isWindows allowedRoots requestUrl) catchClause.
Proof.
  intros Hne. unfold fileHandler. cbn [url].
  destruct requestUrl; [congruence | reflexivity].
Qed.

(** The handler once the canonical path is known: an allowed response,
    or two lines and the constructor's exception. *)
Lemma fileHandler_resolved (isWindows : bool) (allowedRoots : list string)
    (requestUrl realPath : string) :
  requestUrl <> EmptyString ->
  resolvesTo isWindows requestUrl realPath ->
  fileHandler isWindows allowedRoots (mkRequest (Some requestUrl))
  = if isAbsolute realPath then
      if existsb (matchesRoot isWindows realPath) allowedRoots
      then ([], Normal (allowedResponse realPath))
      else ([missLine realPath allowedRoots; catchLine (rangeError (-10))],
            Throw (rangeError (-10)))
    else ([nonAbsoluteLine realPath; catchLine (rangeError (-10))],
          Throw (rangeError (-10))).
Proof.
  intros Hne Hres. rewrite fileHandler_present by assumption.
  rewrite (tryBlock_resolved _ _ _ _ Hres).
  destruct (isAbsolute realPath); [|reflexivity].
  destruct (existsb _ _); reflexivity.
Qed.

(** The handler when a stage throws: the [catch] clause writes its line
    and throws in its turn. *)
Lemma fileHandler_thrown (isWindows : bool) (allowedRoots : list string)
    (requestUrl : string) (err : Thrown) :
  requestUrl <> EmptyString ->
  tryBlock isWindows allowedRoots requestUrl = ([], Throw err) ->
  fileHandler isWindows allowedRoots (mkRequest (Some requestUrl))
  = ([catchLine err], Throw (rangeError (-10))).
Proof.
  intros Hne Hthrow. rewrite fileHandler_present by assumption.
  now rewrite Hthrow.
Qed.

(** With a URL present the handler returns the allowed response of the
    canonical path, or throws the exception of status -10. *)
Lemma response_cases (isWindows : bool) (allowedRoots : list string)
    (requestUrl : string) :
  requestUrl <> EmptyString ->
  let handled :=
    fileHandler isWindows allowedRoots (mkRequest (Some requestUrl)) in
  (exists realPath,
      resolvesTo isWindows requestUrl realPath
      /\ isAbsolute realPath = true
      /\ existsb (matchesRoot isWindows realPath) allowedRoots = true
      /\ handled = ([], Normal (allowedResponse realPath)))
  \/ (responseOf handled = Throw (rangeError (-10)) /\ fst handled <> []).
Proof.
  intros Hne. cbv zeta.
  destruct (resolves_or_throws isWindows allowedRoots requestUrl)
    as [[realPath Hres]|[err Hthrow]].
  - rewrite (fileHandler_resolved _ _ _ realPath) by assumption.
    destruct (isAbsolute realPath) eqn:Habs;
      [|right; split; [reflexivity | discriminate]].
    destruct (existsb _ _) eqn:Hex;
      [|right; split; [reflexivity | discriminate]].
    left. now exists realPath.
  - rewrite (fileHandler_thrown _ _ _ err) by assumption.
    right; split; [reflexivity | discriminate].
Qed.

Lemma matchesRoot_extension (isWindows : bool) (root rest : string) :
  matchesRoot isWindows (root ++ rest) root = true.
Proof.
  unfold matchesRoot, caseFold. destruct isWindows.
  - rewrite toLowerCase_append. apply startsWith_append.
  - apply startsWith_append.
Qed.

(** The response depends on the roots only through the answer to: is
    some root a prefix of the canonical path? *)
Lemma response_existsb (isWindows : bool)
    (allowedRoots allowedRoots' : list string) (request : Request) :
  (forall realPath,
      existsb (matchesRoot isWindows realPath) allowedRoots
      = existsb (matchesRoot isWindows realPath) allowedRoots') ->
  responseOf (fileHandler isWindows allowedRoots request)
  = responseOf (fileHandler isWindows allowedRoots' request).
Proof.
  intros Hsame.
  destruct request as [[requestUrl|]]; [|reflexivity].
  destruct (String.eqb_spec requestUrl EmptyString) as [->|Hne];
    [reflexivity|].
  destruct (resolves_or_throws isWindows allowedRoots requestUrl)
    as [[realPath Hres]|[err Hthrow]].
  - rewrite !(fileHandler_resolved _ _ _ realPath) by assumption.
    rewrite Hsame. destruct (isAbsolute realPath); [|reflexivity].
    destruct (existsb _ allowedRoots'); reflexivity.
  - assert (Hthrow' : tryBlock isWindows allowedRoots' requestUrl
                      = ([], Throw err)).
    { revert Hthrow. unfold tryBlock.
      destruct (_urlToPath requestUrl _) as [targetPath|]; [|trivial].
      cbn [lift bindLogged fst snd].
      destruct (if existsSync _ then _ else _) as [realPath|]; [|trivial].
      cbn [lift bindLogged fst snd app].
      destruct (negb (isAbsolute realPath)); [trivial|].
      fold (caseFold isWindows realPath).
      rewrite !forAllowedRoots_existsb, Hsame.
      destruct (existsb _ allowedRoots'); [trivial | discriminate]. }
    now rewrite !(fileHandler_thrown _ _ _ err).
Qed.

Lemma decide_allowed_iff (isWindows : bool)
    (allowedRoots : list string) (request : Request) (path : string) :
  decide isWindows allowedRoots request = Normal (Allowed path)
  <-> exists requestUrl,
        url request = Some requestUrl
        /\ requestUrl <> EmptyString
        /\ resolvesTo isWindows requestUrl path
        /\ isAbsolute path = true
        /\ exists root, In root allowedRoots
                        /\ matchesRoot isWindows path root = true.
Proof.
  split.
  - destruct request as [[requestUrl|]]; [|discriminate].
    destruct (String.eqb_spec requestUrl EmptyString) as [->|Hne];
      [discriminate|].
    unfold decide.
    destruct (response_cases isWindows allowedRoots requestUrl Hne)
      as [(realPath & Hres & Habs & Hex & ->)|[-> _]]; [|discriminate].
    cbn. intros H; inversion H; subst.
    exists requestUrl. repeat split; try assumption.
    apply existsb_exists in Hex. exact Hex.
  - intros (requestUrl & Hurl & Hne & Hres & Habs & root & Hin & Hmatch).
    destruct request as [u]. cbn in Hurl. subst u. unfold decide.
    rewrite (fileHandler_resolved _ _ _ path) by assumption.
    rewrite Habs.
    replace (existsb _ allowedRoots) with true; [reflexivity|].
    symmetry. apply existsb_exists. now exists root.
Qed.

End StageFacts.

Lemma isAbsolute_under_root {host : Host} {laws : HostLaws host}
    (isWindows : bool) (realPath root : string) :
  isAbsolute root = true ->
  matchesRoot isWindows realPath root = true ->
  isAbsolute realPath = true.
Proof.
  unfold matchesRoot, caseFold. intros Habs Hmatch. destruct isWindows.
  - rewrite <- isAbsolute_toLowerCase.
    apply (isAbsolute_extends _ (toLowerCase root)); [|assumption].
    now rewrite isAbsolute_toLowerCase.
  - now apply (isAbsolute_extends _ root).
Qed.

Lemma toLowerCaseUnit_slash (c : ascii) :
  Ascii.eqb (toLowerCaseUnit c) Posix.slash = Ascii.eqb c Posix.slash.
Proof.
  destruct c as [[] [] [] [] [] [] [] []]; reflexivity.
Qed.

#[export] Instance posix_laws (fs : Posix.FileSystem)
  : HostLaws (Posix.host fs).
Proof.
  split; cbn.
  - intros path [|c root]; cbn; [discriminate|].
    intros Hc. destruct path as [|d path]; [discriminate|]. cbn.
    destruct (Ascii.eqb_spec c d) as [->|]; [|discriminate].
    now intros _.
  - intros [|c path]; [reflexivity|].
    apply toLowerCaseUnit_slash.
Qed.

(** ** The scenarios of the description, run *)

Module ScenarioChecks.

Import Scenario.

Example allowed_in_root :
  Posix.handle emptyDisk options (Some "file:///data/app/attachments/a.png")
  = Normal (Allowed "/data/app/attachments/a.png").
Proof. reflexivity. Qed.

Example elsewhere_throws :
  Posix.handle emptyDisk options (Some "file:///etc/passwd")
  = Throw (Posix.rangeError (-10)).
Proof. reflexivity. Qed.

Example traversal_throws :
  Posix.handle emptyDisk options (Some "file:///data/app/../../etc/passwd")
  = Throw (Posix.rangeError (-10)).
Proof. reflexivity. Qed.

Example empty_url_throws :
  Posix.handle emptyDisk options (Some EmptyString)
  = Throw (Posix.rangeError (-300)).
Proof. reflexivity. Qed.

Example query_and_fragment_stripped :
  Posix.handle emptyDisk options (Some "file:///data/app/img.png?x=1#y")
  = Posix.handle emptyDisk options (Some "file:///data/app/img.png").
Proof. reflexivity. Qed.

Example malformed_escape_logged :
  @_createFileHandler (Posix.host emptyDisk) Posix.attachments options
    (mkRequest (Some "file:///data/app/img%2"))
  = (["Warning: denying request because of an error: URI malformed"],
     Throw (Posix.rangeError (-10))).
Proof. reflexivity. Qed.

Example unc_path_kept :
  @_urlToPath (Posix.host emptyDisk) "//share/home/a.png?x" None
  = Normal "//share/home/a.png".
Proof. reflexivity. Qed.

End ScenarioChecks.

(** ** Properties of the handler *)

(** C1.  A request whose URL decodes and canonicalises to a path lying
    under an allowed root, the root itself included, is allowed, and the
    path returned is that canonical path.  The roots are absolute paths,
    and the host is one on which extending an absolute path keeps it
    absolute. *)
Theorem allowed_under_root {host : Host} {laws : HostLaws host}
    (isWindows : bool) (allowedRoots : list string)
    (requestUrl realPath root : string) :
  requestUrl <> EmptyString ->
  resolvesTo isWindows requestUrl realPath ->
  In root allowedRoots ->
  isAbsolute root = true ->
  realPath = root \/ matchesRoot isWindows realPath root = true ->
  responseOf (fileHandler isWindows allowedRoots (mkRequest (Some requestUrl)))
  = Normal (mkResponse (Some (JsonPath realPath)) defaultStatus)
  /\ decide isWindows allowedRoots (mkRequest (Some requestUrl))
     = Normal (Allowed realPath).
Proof.
  intros Hne Hres Hin Habs Hunder.
  assert (Hmatch : matchesRoot isWindows realPath root = true).
  { destruct Hunder as [->|H]; [|exact H].
    rewrite <- (append_empty_r root) at 1. apply matchesRoot_extension. }
  assert (Habs' : isAbsolute realPath = true)
    by (eapply isAbsolute_under_root; eassumption).
  assert (Hex : existsb (matchesRoot isWindows realPath) allowedRoots = true)
    by (apply existsb_exists; now exists root).
  unfold decide.
  rewrite (fileHandler_resolved _ _ _ realPath) by assumption.
  rewrite Habs', Hex. split; reflexivity.
Qed.

Lemma allowed_under_root_witness :
  Posix.handle Scenario.emptyDisk Scenario.options
    (Some "file:///data/app/attachments/a.png")
  = Normal (Allowed "/data/app/attachments/a.png").
Proof.
  refine (proj2 (@allowed_under_root (Posix.host Scenario.emptyDisk) _
            false Scenario.roots "file:///data/app/attachments/a.png"
            "/data/app/attachments/a.png" "/data/app" _ _ _ _ _)).
  - discriminate.
  - exists "/data/app/attachments/a.png". split; reflexivity.
  - left; reflexivity.
  - reflexivity.
  - right; reflexivity.
Defined.

(** C2.  The allow-list check runs on the resolved path: when the
    normalised path exists the handler's result is decided by its real
    path, when it does not exist by the normalised path itself, with no
    resolution attempted.  A link whose real path is under no root is
    not allowed, wherever the link lies; but no denial is returned for
    it: the handler writes two lines and throws the exception the
    constructor raises for status -10. *)
Theorem symlink_outside_roots_throws {host : Host}
    (isWindows : bool) (allowedRoots : list string)
    (requestUrl targetPath : string) :
  requestUrl <> EmptyString ->
  _urlToPath requestUrl (Some (mkOptions isWindows)) = Normal targetPath ->
  let target := normalize targetPath in
  let handled :=
    fileHandler isWindows allowedRoots (mkRequest (Some requestUrl)) in
  let outcome (realPath : string) : Handled :=
    if isAbsolute realPath then
      if existsb (matchesRoot isWindows realPath) allowedRoots
      then ([], Normal (allowedResponse realPath))
      else ([missLine realPath allowedRoots; catchLine (rangeError (-10))],
            Throw (rangeError (-10)))
    else ([nonAbsoluteLine realPath; catchLine (rangeError (-10))],
          Throw (rangeError (-10))) in
  (existsSync target = true ->
   forall realPath, realpathSync target = Normal realPath ->
     handled = outcome realPath)
  /\ (existsSync target = false -> handled = outcome target)
  /\ (existsSync target = true ->
      forall realPath, realpathSync target = Normal realPath ->
        (forall root, In root allowedRoots ->
                      matchesRoot isWindows realPath root = false) ->
        responseOf handled = Throw (rangeError (-10))
        /\ exists line, fst handled = [line; catchLine (rangeError (-10))]).
Proof.
  intros Hne Hurl target handled outcome. subst handled outcome.
  assert (Hres : forall realPath,
             canonicalize targetPath = Normal realPath ->
             resolvesTo isWindows requestUrl realPath)
    by (intros realPath H; now exists targetPath).
  unfold canonicalize in Hres. fold target in Hres.
  split; [|split].
  - intros Hex realPath Hreal. rewrite Hex in Hres.
    apply fileHandler_resolved; [assumption | now apply Hres].
  - intros Hex. rewrite Hex in Hres.
    apply fileHandler_resolved; [assumption | now apply Hres].
  - intros Hex realPath Hreal Hmiss. rewrite Hex in Hres.
    rewrite (fileHandler_resolved _ _ _ realPath) by auto.
    destruct (isAbsolute realPath);
      [|split; [reflexivity | eexists; reflexivity]].
    destruct (existsb _ allowedRoots) eqn:E;
      [|split; [reflexivity | eexists; reflexivity]].
    apply existsb_exists in E as (root & Hin & Hmatch).
    rewrite (Hmiss root Hin) in Hmatch. discriminate.
Qed.

Lemma symlink_outside_roots_throws_witness :
  matchesRoot false "/data/app/link" "/data/app" = true
  /\ Posix.handle Scenario.linkedDisk Scenario.options
       (Some "file:///data/app/link")
     = Throw (Posix.rangeError (-10)).
Proof.
  split; [reflexivity|].
  refine (f_equal (fun c => match c with
                            | Normal response => Normal (decisionOf response)
                            | Throw err => Throw err
                            end)
            (proj1 (proj2 (proj2 (@symlink_outside_roots_throws
               (Posix.host Scenario.linkedDisk) false Scenario.roots
               "file:///data/app/link" "/data/app/link" _ _))
               _ "/etc/passwd" _ _))).
  - discriminate.
  - reflexivity.
  - reflexivity.
  - reflexivity.
  - intros root Hin. cbn in Hin.
    repeat (destruct Hin as [<-|Hin]; [reflexivity|]). destruct Hin.
Defined.

(** C3.  For a request that carries a URL, each cause of denial (a decode
    or canonicalisation exception, a non-absolute path, a path under no
    root) ends the same way, but not with a response of status -10: the
    constructor refuses that status and the handler throws its
    exception.  No response without a body is ever returned. *)
Theorem denial_causes_throw {host : Host}
    (isWindows : bool) (allowedRoots : list string) (requestUrl : string) :
  requestUrl <> EmptyString ->
  let handled :=
    fileHandler isWindows allowedRoots (mkRequest (Some requestUrl)) in
  (forall cause, deniedFor isWindows allowedRoots requestUrl cause ->
                 responseOf handled = Throw (rangeError (-10)))
  /\ (forall response, responseOf handled = Normal response ->
                       body response <> None /\ status response = 200).
Proof.
  intros Hne handled. subst handled. split.
  - intros cause Hcause.
    destruct Hcause as [err Hurl | targetPath err Hurl Hcanon
                       | realPath Hres Habs | realPath Hres Habs Hmiss].
    + now rewrite (fileHandler_thrown _ _ _ err)
        by (auto using tryBlock_decode_throws).
    + now rewrite (fileHandler_thrown _ _ _ err)
        by (eauto using tryBlock_canonicalize_throws).
    + rewrite (fileHandler_resolved _ _ _ realPath) by assumption.
      now rewrite Habs.
    + rewrite (fileHandler_resolved _ _ _ realPath) by assumption.
      rewrite Habs.
      destruct (existsb _ allowedRoots) eqn:E; [|reflexivity].
      apply existsb_exists in E as (root & Hin & Hmatch).
      rewrite (Hmiss root Hin) in Hmatch. discriminate.
  - intros response.
    destruct (response_cases isWindows allowedRoots requestUrl Hne)
      as [(realPath & _ & _ & _ & ->)|[-> _]]; [|discriminate].
    cbn. intros H; inversion H; subst. split; [discriminate | reflexivity].
Qed.

Lemma denial_causes_throw_witness :
  @_createFileHandler (Posix.host Scenario.emptyDisk) Posix.attachments
    Scenario.options (mkRequest (Some "file:///data/app/../../etc/passwd"))
  = ([missLine "/etc/passwd" Scenario.roots;
      catchLine (Posix.rangeError (-10))],
     Throw (Posix.rangeError (-10)))
  /\ responseOf
       (@_createFileHandler (Posix.host Scenario.emptyDisk) Posix.attachments
          Scenario.options
          (mkRequest (Some "file:///data/app/../../etc/passwd")))
     = Throw (Posix.rangeError (-10)).
Proof.
  split; [reflexivity|].
  refine (proj1 (@denial_causes_throw (Posix.host Scenario.emptyDisk)
            false Scenario.roots "file:///data/app/../../etc/passwd" _)
            AllowListMiss _).
  - discriminate.
  - apply denied_miss with "/etc/passwd".
    + exists "/data/app/../../etc/passwd". split; reflexivity.
    + reflexivity.
    + intros root Hin. cbn in Hin.
      repeat (destruct Hin as [<-|Hin]; [reflexivity|]). destruct Hin.
Defined.

(** C4.  A request whose URL is absent or empty gets no response of
    status -300: the constructor refuses that status, outside any [try],
    and the handler throws its exception, with nothing written.  The
    exception of status -300 is thrown for such a request only. *)
Theorem missing_url_throws {host : Host}
    (isWindows : bool) (allowedRoots : list string) (request : Request) :
  let handled := fileHandler isWindows allowedRoots request in
  (url request = None \/ url request = Some EmptyString ->
   handled = ([], Throw (rangeError (-300))))
  /\ (forall response, responseOf handled = Normal response ->
                       status response <> -300)
  /\ (url request <> None -> url request <> Some EmptyString ->
      responseOf handled = Throw (rangeError (-10))
      \/ exists realPath,
           responseOf handled = Normal (allowedResponse realPath)).
Proof.
  destruct request as [[requestUrl|]]; cbn [url]; cbv zeta.
  2:{ repeat split; try discriminate; congruence. }
  destruct (String.eqb_spec requestUrl EmptyString) as [->|Hne].
  { repeat split; try discriminate; congruence. }
  pose proof (response_cases isWindows allowedRoots requestUrl Hne) as Hcases.
  cbv zeta in Hcases.
  split; [|split].
  - intros [H|H]; congruence.
  - intros response.
    destruct Hcases as [(realPath & _ & _ & _ & ->)|[-> _]]; [|discriminate].
    cbn. intros H; inversion H; subst. discriminate.
  - intros _ _.
    destruct Hcases as [(realPath & _ & _ & _ & ->)|[-> _]];
      [right; now exists realPath | now left].
Qed.

Lemma missing_url_throws_witness :
  @_createFileHandler (Posix.host Scenario.emptyDisk) Posix.attachments
    Scenario.options (mkRequest (Some EmptyString))
  = ([], Throw (Posix.rangeError (-300)))
  /\ @_createFileHandler (Posix.host Scenario.emptyDisk) Posix.attachments
       Scenario.options (mkRequest None)
     = ([], Throw (Posix.rangeError (-300))).
Proof.
  split.
  - exact (proj1 (@missing_url_throws
                    (Posix.host Scenario.emptyDisk) false Scenario.roots
                    (mkRequest (Some EmptyString)))
             (or_intror eq_refl)).
  - exact (proj1 (@missing_url_throws
                    (Posix.host Scenario.emptyDisk) false Scenario.roots
                    (mkRequest None))
             (or_introl eq_refl)).
Defined.

(** C5.  The root test is a comparison of strings and nothing more: a
    request that resolves to an absolute path is allowed exactly when
    the path, case-folded under the Windows flag, is some root followed
    by any units at all, a separator or not.  With the root [/data/app]
    the path [/data/app-evil/secret] is allowed. *)
Theorem root_test_is_string_prefix {host : Host}
    (isWindows : bool) (allowedRoots : list string)
    (requestUrl path : string) :
  requestUrl <> EmptyString ->
  resolvesTo isWindows requestUrl path ->
  isAbsolute path = true ->
  (decide isWindows allowedRoots (mkRequest (Some requestUrl))
   = Normal (Allowed path)
   <-> exists root rest,
         In root allowedRoots
         /\ caseFold isWindows path = caseFold isWindows root ++ rest)
  /\ (forall root rest,
        In root allowedRoots -> path = root ++ rest ->
        decide isWindows allowedRoots (mkRequest (Some requestUrl))
        = Normal (Allowed path)).
Proof.
  intros Hne Hres Habs.
  assert (Hiff : decide isWindows allowedRoots (mkRequest (Some requestUrl))
                 = Normal (Allowed path)
                 <-> exists root, In root allowedRoots
                                  /\ matchesRoot isWindows path root = true).
  { rewrite decide_allowed_iff. split.
    - intros (u & _ & _ & _ & _ & H). exact H.
    - intros H. exists requestUrl. now repeat split. }
  split.
  - rewrite Hiff. unfold matchesRoot. split.
    + intros (root & Hin & Hmatch).
      apply startsWith_split in Hmatch as [rest Hrest].
      now exists root, rest.
    + intros (root & rest & Hin & Hrest). exists root.
      split; [assumption|]. rewrite Hrest. apply startsWith_append.
  - intros root rest Hin ->. apply Hiff. exists root.
    split; [assumption | apply matchesRoot_extension].
Qed.

Lemma root_test_is_string_prefix_witness :
  Posix.handle Scenario.emptyDisk Scenario.options
    (Some "file:///data/app-evil/secret")
  = Normal (Allowed "/data/app-evil/secret").
Proof.
  refine (proj2 (@root_test_is_string_prefix (Posix.host Scenario.emptyDisk)
            false Scenario.roots "file:///data/app-evil/secret"
            "/data/app-evil/secret" _ _ _) "/data/app" "-evil/secret" _ _).
  - discriminate.
  - exists "/data/app-evil/secret". split; reflexivity.
  - reflexivity.
  - left; reflexivity.
  - reflexivity.
Defined.


Lemma stripUnits_exact (n : nat) (s : string) :
  (n <= String.length s)%nat ->
  s = firstUnits n s ++ stripUnits n s /\ String.length (firstUnits n s) = n.
Proof.
  revert s; induction n as [|n IH]; intros s Hlen.
  - split; reflexivity.
  - destruct s as [|c s]; [cbn in Hlen; lia|].
    cbn in Hlen. destruct (IH s) as [Heq Hl]; [lia|].
    cbn. split; congruence.
Qed.

(** C6.  [_urlToPath] percent-decodes first and throws when that does;
    the decoded string is kept whole when it begins with [//] and loses
    its first 7 units, 8 with the Windows flag, otherwise; the result is
    then cut at the first [?] and after that at the first [#], a cut
    leaving the string as it is when the unit does not occur. *)
Theorem urlToPath_decodes_strips_truncates {host : Host}
    (targetUrl : string) (options : option UrlToPathOptions) :
  _urlToPath targetUrl options
  = (decoded <- decodeURIComponent targetUrl ;;
     Normal (specUrlToPath (flagOf options) decoded))
  /\ (forall (n : nat) (s : string), (n <= String.length s)%nat ->
        s = firstUnits n s ++ stripUnits n s
        /\ String.length (firstUnits n s) = n)
  /\ (forall c s, occurs c s = false -> truncateAtFirst c s = s).
Proof.
  split; [|split; [apply stripUnits_exact | apply truncateAtFirst_absent]].
  unfold _urlToPath, specUrlToPath.
  destruct (decodeURIComponent targetUrl) as [decoded|err]; [|reflexivity].
  cbn [bind]. f_equal.
  change "?" with (unit "?"). change "#" with (unit "#").
  rewrite !eliminate_truncateAtFirst. do 2 f_equal.
  assert (Hstrip : slice decoded
                     match options with
                     | Some o => if isWindows o then 8 else 7
                     | None => 7
                     end None
                   = stripUnits (if flagOf options then 8 else 7) decoded).
  { destruct options as [[[]]|]; cbn [flagOf isWindows];
      now rewrite slice_from by lia. }
  rewrite Hstrip. clear Hstrip.
  destruct decoded as [|c [|d decoded]]; cbn [startsWith beginsWithTwoSlashes].
  - reflexivity.
  - now destruct (Ascii.eqb "/" c).
  - rewrite (Ascii.eqb_sym c), (Ascii.eqb_sym d).
    now destruct (Ascii.eqb "/" c), (Ascii.eqb "/" d).
Qed.

Lemma urlToPath_decodes_strips_truncates_witness :
  @_urlToPath (Posix.host Scenario.emptyDisk)
    "file:///root/img.png?x=1#y" None
  = Normal "/root/img.png".
Proof.
  exact (eq_trans
           (proj1 (@urlToPath_decodes_strips_truncates
                     (Posix.host Scenario.emptyDisk)
                     "file:///root/img.png?x=1#y" None))
           eq_refl).
Defined.

(** C7.  With the Windows flag a canonical path that begins with an
    allowed root written in any letter case is allowed, and the path
    returned is the canonical path in its own case. *)
Theorem windows_root_match_ignores_case {host : Host}
    (allowedRoots : list string) (requestUrl root variant rest : string) :
  requestUrl <> EmptyString ->
  resolvesTo true requestUrl (variant ++ rest) ->
  In root allowedRoots ->
  sameIgnoringCase variant root = true ->
  isAbsolute (variant ++ rest) = true ->
  responseOf (fileHandler true allowedRoots (mkRequest (Some requestUrl)))
  = Normal (mkResponse (Some (JsonPath (variant ++ rest))) defaultStatus).
Proof.
  intros Hne Hres Hin Hsame Habs.
  rewrite (fileHandler_resolved _ _ _ (variant ++ rest)) by assumption.
  rewrite Habs.
  replace (existsb _ allowedRoots) with true; [reflexivity|].
  symmetry. apply existsb_exists. exists root. split; [assumption|].
  unfold matchesRoot, caseFold.
  apply sameIgnoringCase_toLowerCase in Hsame.
  rewrite toLowerCase_append, Hsame. apply startsWith_append.
Qed.

Lemma windows_root_match_ignores_case_witness :
  Posix.handle Scenario.emptyDisk Scenario.windowsOptions
    (Some "file:////Users/BOB/signal/x.png")
  = Normal (Allowed "/Users/BOB/signal/x.png").
Proof.
  refine (f_equal (fun c => match c with
                            | Normal response => Normal (decisionOf response)
                            | Throw err => Throw err
                            end)
            (@windows_root_match_ignores_case (Posix.host Scenario.emptyDisk)
               Scenario.windowsRoots "file:////Users/BOB/signal/x.png"
               "/Users/bob/Signal" "/Users/BOB/signal" "/x.png" _ _ _ _ _)).
  - discriminate.
  - exists "/Users/BOB/signal/x.png". split; reflexivity.
  - left; reflexivity.
  - reflexivity.
  - reflexivity.
Defined.

(** C8.  A canonical path that is not absolute is never allowed,
    whatever the allowed roots are, and a path that is allowed is
    absolute; but the non-absolute path gets no response of status -10:
    the handler writes its line, the constructor refuses the status, the
    [catch] clause writes a second line and the handler throws. *)
Theorem non_absolute_path_throws {host : Host}
    (isWindows : bool) (allowedRoots : list string)
    (requestUrl realPath : string) :
  requestUrl <> EmptyString ->
  resolvesTo isWindows requestUrl realPath ->
  (isAbsolute realPath = false ->
   fileHandler isWindows allowedRoots (mkRequest (Some requestUrl))
   = ([nonAbsoluteLine realPath; catchLine (rangeError (-10))],
      Throw (rangeError (-10))))
  /\ (forall path,
        decide isWindows allowedRoots (mkRequest (Some requestUrl))
        = Normal (Allowed path) ->
        path = realPath /\ isAbsolute path = true).
Proof.
  intros Hne Hres. split.
  - intros Habs.
    rewrite (fileHandler_resolved _ _ _ realPath) by assumption.
    now rewrite Habs.
  - intros path. unfold decide.
    rewrite (fileHandler_resolved _ _ _ realPath) by assumption.
    destruct (isAbsolute realPath) eqn:Habs; [|discriminate].
    destruct (existsb _ _); [|discriminate].
    cbn. intros H; inversion H; subst. now split.
Qed.

Lemma non_absolute_path_throws_witness :
  matchesRoot false "data/x" "data" = true
  /\ @fileHandler (Posix.host Scenario.emptyDisk) false
       ["data"; EmptyString] (mkRequest (Some "file://data/x"))
     = ([nonAbsoluteLine "data/x"; catchLine (Posix.rangeError (-10))],
        Throw (Posix.rangeError (-10))).
Proof.
  split; [reflexivity|].
  refine (proj1 (@non_absolute_path_throws (Posix.host Scenario.emptyDisk)
            false ["data"; EmptyString] "file://data/x" "data/x" _ _) _).
  - discriminate.
  - exists "data/x". split; reflexivity.
  - reflexivity.
Defined.

Lemma existsb_Permutation {A : Type} (f : A -> bool) (l l' : list A) :
  Permutation l l' -> existsb f l = existsb f l'.
Proof.
  induction 1 as [|x l l' _ IH|x y l|l l' l'' _ IH1 _ IH2]; cbn.
  - reflexivity.
  - now rewrite IH.
  - destruct (f x), (f y); reflexivity.
  - congruence.
Qed.

(** C9.  The response, so whether the request is allowed and the path
    returned when it is, does not depend on the order of the allowed
    roots. *)
Theorem roots_order_irrelevant {host : Host}
    (isWindows : bool) (allowedRoots allowedRoots' : list string)
    (request : Request) :
  Permutation allowedRoots allowedRoots' ->
  responseOf (fileHandler isWindows allowedRoots request)
  = responseOf (fileHandler isWindows allowedRoots' request).
Proof.
  intros Hperm. apply response_existsb. intros realPath.
  now apply existsb_Permutation.
Qed.

Lemma roots_order_irrelevant_witness :
  responseOf (@fileHandler (Posix.host Scenario.emptyDisk) false
                ["/data"; "/data/app"; "/opt/app"]
                (mkRequest (Some "file:///data/app/a.png")))
  = responseOf (@fileHandler (Posix.host Scenario.emptyDisk) false
                  ["/opt/app"; "/data/app"; "/data"]
                  (mkRequest (Some "file:///data/app/a.png"))).
Proof.
  apply roots_order_irrelevant.
  apply perm_trans with ["/data/app"; "/data"; "/opt/app"].
  - apply perm_swap.
  - apply perm_trans with ["/data/app"; "/opt/app"; "/data"].
    + apply perm_skip, perm_swap.
    + apply perm_swap.
Defined.

(** C10.  For a string [s] and a single unit [c],
    [_eliminateAllAfterCharacter s c] is a prefix of [s] in which [c]
    does not occur, and applying the function to it again returns it
    unchanged. *)
Theorem eliminate_prefix_without_character (s : string) (c : ascii) :
  let r := _eliminateAllAfterCharacter s (unit c) in
  (exists rest, s = r ++ rest)
  /\ startsWith s r = true
  /\ indexOf r (unit c) = -1
  /\ occurs c r = false
  /\ _eliminateAllAfterCharacter r (unit c) = r.
Proof.
  cbv zeta. rewrite !eliminate_truncateAtFirst.
  pose proof (truncateAtFirst_prefix c s) as Hpre.
  pose proof (occurs_truncateAtFirst c s) as Hocc.
  repeat split; try assumption.
  - now apply startsWith_iff.
  - now apply indexOf_unit_absent.
  - now apply truncateAtFirst_absent.
Qed.

Lemma eliminate_prefix_without_character_witness :
  _eliminateAllAfterCharacter "a?b?c" "?" = "a"
  /\ _eliminateAllAfterCharacter (_eliminateAllAfterCharacter "a?b?c" "?") "?"
     = _eliminateAllAfterCharacter "a?b?c" "?".
Proof.
  split; [reflexivity|].
  exact (proj2 (proj2 (proj2 (proj2
           (eliminate_prefix_without_character "a?b?c" "?"))))).
Defined.

(** ** Further facts about the string primitives *)

Lemma append_associative (a b c : string) : (a ++ b) ++ c = a ++ b ++ c.
Proof. induction a; cbn; congruence. Qed.

Lemma startsWith_extend (s needle rest : string) :
  startsWith s needle = true -> startsWith (s ++ rest) needle = true.
Proof.
  intros H. apply startsWith_split in H as [tail ->].
  rewrite append_associative. apply startsWith_append.
Qed.

Lemma indexOfFrom_firstOccurrence (s needle : string) (pos : Z) :
  indexOfFrom s needle pos
  = match firstOccurrence s needle with
    | Some k => pos + Z.of_nat k
    | None => -1
    end.
Proof.
  revert pos; induction s as [|c s IH]; intros pos; cbn.
  - destruct (startsWith EmptyString needle); [lia | reflexivity].
  - destruct (startsWith (String c s) needle); [lia|].
    rewrite IH. destruct (firstOccurrence s needle); cbn; lia.
Qed.

Lemma eliminate_firstOccurrence (s needle : string) :
  _eliminateAllAfterCharacter s needle
  = match firstOccurrence s needle with
    | Some k => firstUnits k s
    | None => s
    end.
Proof.
  unfold _eliminateAllAfterCharacter, indexOf.
  rewrite indexOfFrom_firstOccurrence.
  destruct (firstOccurrence s needle) as [k|]; [|reflexivity].
  destruct (Z.ltb_spec (0 + Z.of_nat k) 0); [lia|].
  rewrite slice_to by lia. now rewrite Z.add_0_l, Nat2Z.id.
Qed.

Lemma firstOccurrence_split (s needle : string) (k : nat) :
  firstOccurrence s needle = Some k ->
  String.length (firstUnits k s) = k
  /\ exists rest, s = firstUnits k s ++ needle ++ rest.
Proof.
  revert k; induction s as [|c s IH]; intros k; cbn [firstOccurrence].
  - destruct (startsWith EmptyString needle) eqn:E; [|discriminate].
    intros H; inversion H; subst. split; [reflexivity|].
    apply startsWith_split in E as [rest E]. now exists rest.
  - destruct (startsWith (String c s) needle) eqn:E.
    + intros H; inversion H; subst. split; [reflexivity|].
      apply startsWith_split in E as [rest E]. now exists rest.
    + destruct (firstOccurrence s needle) as [k'|]; [|discriminate].
      intros H; inversion H; subst.
      destruct (IH k' eq_refl) as [Hlen [rest Hrest]].
      cbn. split; [congruence|]. exists rest. congruence.
Qed.

Lemma firstUnits_append (a b : string) :
  firstUnits (String.length a) (a ++ b) = a.
Proof. induction a; cbn; congruence. Qed.

Lemma firstOccurrence_firstUnits (s needle : string) (k : nat) :
  needle <> EmptyString ->
  firstOccurrence s needle = Some k ->
  firstOccurrence (firstUnits k s) needle = None.
Proof.
  intros Hne. revert k; induction s as [|c s IH]; intros k;
    cbn [firstOccurrence].
  - destruct (startsWith EmptyString needle) eqn:E; [|discriminate].
    destruct needle; [congruence | discriminate].
  - destruct (startsWith (String c s) needle) eqn:E.
    + intros H; inversion H; subst. cbn.
      destruct needle; [congruence | reflexivity].
    + destruct (firstOccurrence s needle) as [k'|] eqn:Hk; [|discriminate].
      intros H; inversion H; subst. cbn [firstUnits firstOccurrence].
      destruct (startsWith (String c (firstUnits k' s)) needle) eqn:E'.
      * destruct (firstOccurrence_split s needle k' Hk) as [_ [rest Hrest]].
        apply (startsWith_extend _ _ (needle ++ rest)) in E'.
        cbn in E'. rewrite <- Hrest in E'. congruence.
      * now rewrite (IH k' eq_refl).
Qed.

Lemma indexOf_firstOccurrence (s needle : string) :
  indexOf s needle
  = match firstOccurrence s needle with
    | Some k => Z.of_nat k
    | None => -1
    end.
Proof.
  unfold indexOf. rewrite indexOfFrom_firstOccurrence.
  now destruct (firstOccurrence s needle).
Qed.

(** ** Further properties of [_eliminateAllAfterCharacter] *)

(** X1.  Whatever the search string, [_eliminateAllAfterCharacter]
    either does not find it and returns the string unchanged, or cuts
    exactly where it first occurs: the string is the result, then the
    search string, then a rest, and the result is as long as [indexOf]
    says. *)
Theorem eliminate_cuts_at_first_occurrence (s character : string) :
  let r := _eliminateAllAfterCharacter s character in
  (indexOf s character = -1 /\ r = s)
  \/ (0 <= indexOf s character
      /\ Z.of_nat (String.length r) = indexOf s character
      /\ exists rest, s = r ++ character ++ rest).
Proof.
  cbv zeta. rewrite eliminate_firstOccurrence, indexOf_firstOccurrence.
  destruct (firstOccurrence s character) as [k|] eqn:Hk.
  - right. destruct (firstOccurrence_split s character k Hk) as [Hlen Hrest].
    repeat split; [lia | now rewrite Hlen | exact Hrest].
  - left. split; reflexivity.
Qed.

(** X2.  For a search string that is not empty, of any length, the
    result of [_eliminateAllAfterCharacter] no longer contains it, and
    applying the function again changes nothing. *)
Theorem eliminate_leaves_no_occurrence (s character : string) :
  character <> EmptyString ->
  let r := _eliminateAllAfterCharacter s character in
  indexOf r character = -1
  /\ _eliminateAllAfterCharacter r character = r.
Proof.
  intros Hne. cbv zeta.
  assert (Hnone : firstOccurrence (_eliminateAllAfterCharacter s character)
                    character = None).
  { rewrite eliminate_firstOccurrence.
    destruct (firstOccurrence s character) as [k|] eqn:Hk.
    - now apply firstOccurrence_firstUnits.
    - exact Hk. }
  split.
  - now rewrite indexOf_firstOccurrence, Hnone.
  - now rewrite (eliminate_firstOccurrence (_eliminateAllAfterCharacter _ _)),
      Hnone.
Qed.

Lemma eliminate_leaves_no_occurrence_witness :
  _eliminateAllAfterCharacter "a.png?x=1&b=?x" "?x" = "a.png"
  /\ indexOf (_eliminateAllAfterCharacter "a.png?x=1&b=?x" "?x") "?x" = -1.
Proof.
  split; [reflexivity|].
  refine (proj1 (eliminate_leaves_no_occurrence "a.png?x=1&b=?x" "?x" _)).
  discriminate.
Defined.

(** X3.  The two empty inputs: with the empty search string the result
    is the empty string, whatever the string was, and the empty string
    is returned as it is, whatever is searched. *)
Theorem eliminate_empty_inputs (s character : string) :
  _eliminateAllAfterCharacter s EmptyString = EmptyString
  /\ _eliminateAllAfterCharacter EmptyString character = EmptyString.
Proof.
  split.
  - rewrite eliminate_firstOccurrence. now destruct s.
  - rewrite eliminate_firstOccurrence. cbn.
    now destruct (startsWith EmptyString character).
Qed.

(** ** Further properties of [_urlToPath] *)

Lemma urlToPath_specUrlToPath {host : Host}
    (targetUrl : string) (options : option UrlToPathOptions) :
  _urlToPath targetUrl options
  = (decoded <- decodeURIComponent targetUrl ;;
     Normal (specUrlToPath (flagOf options) decoded)).
Proof.
  unfold _urlToPath, specUrlToPath.
  destruct (decodeURIComponent targetUrl) as [decoded|err]; [|reflexivity].
  cbn [bind]. f_equal.
  change "?" with (unit "?"). change "#" with (unit "#").
  rewrite !eliminate_truncateAtFirst. do 2 f_equal.
  replace (slice decoded _ None)
    with (stripUnits (if flagOf options then 8 else 7) decoded)
    by (destruct options as [[[]]|]; cbn [flagOf isWindows];
        now rewrite slice_from by lia).
  destruct decoded as [|c [|d decoded]]; cbn [startsWith beginsWithTwoSlashes].
  - reflexivity.
  - now destruct (Ascii.eqb "/" c).
  - rewrite (Ascii.eqb_sym c), (Ascii.eqb_sym d).
    now destruct (Ascii.eqb "/" c), (Ascii.eqb "/" d).
Qed.

Lemma urlToPath_decoded {host : Host}
    (targetUrl decoded : string) (options : option UrlToPathOptions) :
  decodeURIComponent targetUrl = Normal decoded ->
  _urlToPath targetUrl options
  = Normal (specUrlToPath (flagOf options) decoded).
Proof.
  intros H. now rewrite urlToPath_specUrlToPath, H.
Qed.

Lemma occurs_truncateAtFirst_other (c d : ascii) (s : string) :
  occurs c s = false -> occurs c (truncateAtFirst d s) = false.
Proof.
  induction s as [|e s IH]; cbn; [reflexivity|].
  intros H. apply orb_false_iff in H as [He Hs].
  destruct (Ascii.eqb d e); cbn; [reflexivity|].
  now rewrite He, IH.
Qed.

Lemma truncateAtFirst_commute (c d : ascii) (s : string) :
  truncateAtFirst c (truncateAtFirst d s)
  = truncateAtFirst d (truncateAtFirst c s).
Proof.
  induction s as [|e s IH]; cbn; [reflexivity|].
  destruct (Ascii.eqb d e) eqn:Hd, (Ascii.eqb c e) eqn:Hc; cbn;
    rewrite ?Hd, ?Hc; congruence.
Qed.

(** X4.  A path returned by [_urlToPath] contains neither [?] nor [#]. *)
Theorem urlToPath_has_no_query_or_fragment {host : Host}
    (targetUrl path : string) (options : option UrlToPathOptions) :
  _urlToPath targetUrl options = Normal path ->
  indexOf path "?" = -1 /\ indexOf path "#" = -1.
Proof.
  rewrite urlToPath_specUrlToPath.
  destruct (decodeURIComponent targetUrl) as [decoded|]; [|discriminate].
  cbn [bind]. intros H; inversion H; subst. unfold specUrlToPath.
  change "?" with (unit "?"). change "#" with (unit "#").
  split; apply indexOf_unit_absent.
  - apply occurs_truncateAtFirst_other, occurs_truncateAtFirst.
  - apply occurs_truncateAtFirst.
Qed.

Lemma urlToPath_has_no_query_or_fragment_witness :
  indexOf "/data/app/a.png" "?" = -1 /\ indexOf "/data/app/a.png" "#" = -1.
Proof.
  refine (@urlToPath_has_no_query_or_fragment
            (Posix.host Scenario.emptyDisk)
            "file:///data/app/a.png#top?x=1" "/data/app/a.png" None _).
  reflexivity.
Defined.

(** X5.  The order of the two cuts does not matter: cutting at the first
    [#] and then at the first [?] gives what the source's order gives,
    so a [?] inside a fragment is removed with the fragment. *)
Theorem query_and_fragment_cuts_commute (s : string) (c d : ascii) :
  _eliminateAllAfterCharacter (_eliminateAllAfterCharacter s (unit c)) (unit d)
  = _eliminateAllAfterCharacter (_eliminateAllAfterCharacter s (unit d))
      (unit c).
Proof.
  rewrite !eliminate_truncateAtFirst. apply truncateAtFirst_commute.
Qed.

Lemma beginsWithTwoSlashes_startsWith (s : string) :
  beginsWithTwoSlashes s = startsWith s "//".
Proof.
  destruct s as [|c [|d s]]; cbn [startsWith beginsWithTwoSlashes].
  - reflexivity.
  - now destruct (Ascii.eqb "/" c).
  - rewrite (Ascii.eqb_sym c), (Ascii.eqb_sym d).
    now destruct (Ascii.eqb "/" c), (Ascii.eqb "/" d).
Qed.

Lemma beginsWithTwoSlashes_append (a b : string) :
  (2 <= String.length a)%nat ->
  beginsWithTwoSlashes (a ++ b) = beginsWithTwoSlashes a.
Proof.
  destruct a as [|c [|d a]]; cbn; intros H; try lia. reflexivity.
Qed.

Lemma beginsWithTwoSlashes_length (s : string) :
  beginsWithTwoSlashes s = true -> (2 <= String.length s)%nat.
Proof.
  destruct s as [|c [|d s]]; cbn; intros H; try discriminate. lia.
Qed.

Lemma stripUnits_append (n : nat) (a b : string) :
  (n <= String.length a)%nat ->
  stripUnits n (a ++ b) = stripUnits n a ++ b.
Proof.
  revert a; induction n as [|n IH]; intros a H; [reflexivity|].
  destruct a as [|c a]; cbn in H; [lia|]. cbn. apply IH. lia.
Qed.

Lemma stripUnits_all (n : nat) (s : string) :
  (String.length s <= n)%nat -> stripUnits n s = EmptyString.
Proof.
  revert s; induction n as [|n IH]; intros [|c s] H; cbn in *;
    try reflexivity; try lia.
  apply IH. lia.
Qed.

Lemma truncateAtFirst_append_cut (c : ascii) (a tail : string) :
  truncateAtFirst c (a ++ String c tail) = truncateAtFirst c a.
Proof.
  induction a as [|d a IH]; cbn.
  - now rewrite Ascii.eqb_refl.
  - destruct (Ascii.eqb c d); congruence.
Qed.

Lemma schemeLength_bounds (options : option UrlToPathOptions) :
  (7 <= schemeLength options <= 8)%nat.
Proof. unfold schemeLength. destruct (flagOf options); lia. Qed.

Lemma specUrlToPath_stripped (isWindows : bool) (decoded : string) :
  beginsWithTwoSlashes decoded = false ->
  specUrlToPath isWindows decoded
  = truncateAtFirst "#"
      (truncateAtFirst "?"
         (stripUnits (if isWindows then 8 else 7) decoded)).
Proof. unfold specUrlToPath. now intros ->. Qed.

(** X6.  What follows a [?] or a [#] put at the end of a decoded URL
    does not reach the path: the URL with the addition decodes to the
    same path as the URL without it, provided the URL without it is at
    least as long as the prefix that is removed, or begins with [//]. *)
Theorem query_or_fragment_suffix_ignored {host : Host}
    (targetUrl targetUrl' decoded tail : string) (c : ascii)
    (options : option UrlToPathOptions) :
  decodeURIComponent targetUrl = Normal decoded ->
  decodeURIComponent targetUrl' = Normal (decoded ++ String c tail) ->
  c = "?"%char \/ c = "#"%char ->
  (schemeLength options <= String.length decoded)%nat
  \/ startsWith decoded "//" = true ->
  _urlToPath targetUrl' options = _urlToPath targetUrl options.
Proof.
  intros Hd Hd' Hc Hlen.
  rewrite (urlToPath_decoded _ _ _ Hd), (urlToPath_decoded _ _ _ Hd').
  f_equal. unfold specUrlToPath.
  pose proof (schemeLength_bounds options) as Hb.
  assert (Hlen2 : (2 <= String.length decoded)%nat).
  { destruct Hlen as [H|H]; [lia|].
    apply beginsWithTwoSlashes_length.
    now rewrite beginsWithTwoSlashes_startsWith. }
  rewrite beginsWithTwoSlashes_append by assumption.
  assert (Hcut : forall w,
             truncateAtFirst "#" (truncateAtFirst "?" (w ++ String c tail))
             = truncateAtFirst "#" (truncateAtFirst "?" w)).
  { intros w. destruct Hc as [->| ->].
    - now rewrite truncateAtFirst_append_cut.
    - rewrite (truncateAtFirst_commute "#" "?" (w ++ _)).
      rewrite truncateAtFirst_append_cut. apply truncateAtFirst_commute. }
  destruct (beginsWithTwoSlashes decoded) eqn:Hb2; [apply Hcut|].
  destruct Hlen as [H|H].
  - unfold schemeLength in H.
    destruct (flagOf options); rewrite stripUnits_append by assumption;
      apply Hcut.
  - rewrite beginsWithTwoSlashes_startsWith in Hb2. congruence.
Qed.

Lemma query_or_fragment_suffix_ignored_witness :
  @_urlToPath (Posix.host Scenario.emptyDisk)
    "file:///root/img.png?x=1#y" None
  = @_urlToPath (Posix.host Scenario.emptyDisk) "file:///root/img.png" None.
Proof.
  refine (@query_or_fragment_suffix_ignored (Posix.host Scenario.emptyDisk)
            "file:///root/img.png" "file:///root/img.png?x=1#y"
            "file:///root/img.png" "x=1#y" "?" None _ _ _ _).
  - reflexivity.
  - reflexivity.
  - left; reflexivity.
  - left. cbn. lia.
Defined.

(** X7.  The prefix [_urlToPath] removes is counted, not read: two
    decoded URLs that agree after their first 7 units (8 with the Windows
    flag), neither beginning with [//], give the same path, the cut of
    what they share. *)
Theorem scheme_prefix_not_inspected {host : Host}
    (targetUrl targetUrl' prefix prefix' rest : string)
    (options : option UrlToPathOptions) :
  decodeURIComponent targetUrl = Normal (prefix ++ rest) ->
  decodeURIComponent targetUrl' = Normal (prefix' ++ rest) ->
  String.length prefix = schemeLength options ->
  String.length prefix' = schemeLength options ->
  startsWith prefix "//" = false ->
  startsWith prefix' "//" = false ->
  _urlToPath targetUrl options
  = Normal (_eliminateAllAfterCharacter
              (_eliminateAllAfterCharacter rest "?") "#")
  /\ _urlToPath targetUrl' options = _urlToPath targetUrl options.
Proof.
  intros Hd Hd' Hl Hl' Hs Hs'.
  pose proof (schemeLength_bounds options) as Hb.
  assert (Hpath : forall p, String.length p = schemeLength options ->
                   startsWith p "//" = false ->
                   specUrlToPath (flagOf options) (p ++ rest)
                   = _eliminateAllAfterCharacter
                       (_eliminateAllAfterCharacter rest "?") "#").
  { intros p Hp Hsp.
    rewrite specUrlToPath_stripped
      by (rewrite beginsWithTwoSlashes_append by lia;
          now rewrite beginsWithTwoSlashes_startsWith).
    change "?" with (unit "?"). change "#" with (unit "#").
    rewrite !eliminate_truncateAtFirst. do 2 f_equal.
    fold (schemeLength options). rewrite <- Hp.
    rewrite stripUnits_append by lia.
    now rewrite stripUnits_all by lia. }
  rewrite (urlToPath_decoded _ _ _ Hd), (urlToPath_decoded _ _ _ Hd').
  rewrite !Hpath by assumption. split; reflexivity.
Qed.

Lemma scheme_prefix_not_inspected_witness :
  @_urlToPath (Posix.host Scenario.emptyDisk) "http://etc/passwd" None
  = @_urlToPath (Posix.host Scenario.emptyDisk) "file://etc/passwd" None.
Proof.
  refine (proj2 (@scheme_prefix_not_inspected (Posix.host Scenario.emptyDisk)
            "file://etc/passwd" "http://etc/passwd"
            "file://" "http://" "etc/passwd" None _ _ _ _ _ _));
    reflexivity.
Defined.

(** X8.  A decoded URL no longer than the prefix to remove, and not
    beginning with [//], gives the empty path; nothing is thrown. *)
Theorem short_url_gives_empty_path {host : Host}
    (targetUrl decoded : string) (options : option UrlToPathOptions) :
  decodeURIComponent targetUrl = Normal decoded ->
  startsWith decoded "//" = false ->
  (String.length decoded <= schemeLength options)%nat ->
  _urlToPath targetUrl options = Normal EmptyString.
Proof.
  intros Hd Hs Hl. rewrite (urlToPath_decoded _ _ _ Hd). f_equal.
  rewrite specUrlToPath_stripped
    by now rewrite beginsWithTwoSlashes_startsWith.
  fold (schemeLength options). now rewrite stripUnits_all.
Qed.

Lemma short_url_gives_empty_path_witness :
  @_urlToPath (Posix.host Scenario.emptyDisk) "file:" None
  = Normal EmptyString.
Proof.
  refine (@short_url_gives_empty_path (Posix.host Scenario.emptyDisk)
            "file:" "file:" None _ _ _).
  - reflexivity.
  - reflexivity.
  - cbn. lia.
Defined.

(** ** Further properties of the handler *)

Lemma startsWith_transitive (a b c : string) :
  startsWith a b = true -> startsWith b c = true -> startsWith a c = true.
Proof.
  intros Hab Hbc.
  apply startsWith_split in Hab as [r1 ->].
  apply startsWith_split in Hbc as [r2 ->].
  rewrite append_associative. apply startsWith_append.
Qed.

Lemma matchesRoot_transitive (isWindows : bool) (path root root' : string) :
  matchesRoot isWindows path root = true ->
  matchesRoot isWindows root root' = true ->
  matchesRoot isWindows path root' = true.
Proof. unfold matchesRoot. apply startsWith_transitive. Qed.

(** X9.  Exactly the paths that pass are allowed: a request is allowed
    with a path if and only if it carries a URL that is not empty, the
    URL decodes and canonicalises to that path, the path is absolute, and
    some allowed root, case-folded under the Windows flag and as written
    otherwise, is a string prefix of it. *)
Theorem allowed_exactly_when_under_a_root {host : Host} (isWindows : bool)
    (allowedRoots : list string) (request : Request) (path : string) :
  decide isWindows allowedRoots request = Normal (Allowed path)
  <-> exists requestUrl,
        url request = Some requestUrl
        /\ requestUrl <> EmptyString
        /\ resolvesTo isWindows requestUrl path
        /\ isAbsolute path = true
        /\ exists root rest,
             In root allowedRoots
             /\ caseFold isWindows path = caseFold isWindows root ++ rest.
Proof.
  rewrite decide_allowed_iff. unfold matchesRoot.
  split; intros (requestUrl & Hurl & Hne & Hres & Habs & root & H);
    exists requestUrl; repeat split; try assumption.
  - destruct H as [Hin Hmatch].
    apply startsWith_split in Hmatch as [rest Hrest].
    now exists root, rest.
  - destruct H as (rest & Hin & Hrest). exists root. split; [assumption|].
    rewrite Hrest. apply startsWith_append.
Qed.

Lemma allowed_exactly_when_under_a_root_witness :
  Posix.handle Scenario.emptyDisk Scenario.options
    (Some "file:///opt/app/../app/index.html")
  = Normal (Allowed "/opt/app/index.html").
Proof.
  refine (proj2 (@allowed_exactly_when_under_a_root
                   (Posix.host Scenario.emptyDisk) false Scenario.roots
                   (mkRequest (Some "file:///opt/app/../app/index.html"))
                   "/opt/app/index.html") _).
  exists "file:///opt/app/../app/index.html".
  repeat split.
  - discriminate.
  - exists "/opt/app/../app/index.html". split; reflexivity.
  - exists "/opt/app", "/index.html". split; [right; left|]; reflexivity.
Defined.



Lemma existsb_incl {A : Type} (f : A -> bool) (l l' : list A) :
  incl l l' -> existsb f l = true -> existsb f l' = true.
Proof.
  intros Hincl H. apply existsb_exists in H as (x & Hin & Hx).
  apply existsb_exists. exists x. split; [now apply Hincl | assumption].
Qed.

Lemma existsb_same_elements {A : Type} (f : A -> bool) (l l' : list A) :
  incl l l' -> incl l' l -> existsb f l = existsb f l'.
Proof.
  intros H1 H2.
  destruct (existsb f l) eqn:E, (existsb f l') eqn:E'; try reflexivity.
  - now rewrite (existsb_incl f l l' H1 E) in E'.
  - now rewrite (existsb_incl f l' l H2 E') in E.
Qed.

(** X11.  More roots never deny what fewer roots allow: when every root
    of one list is in another, a request allowed under the first is
    allowed, with the same path, under the second.  Two lists with the
    same roots, in any order and any number of copies, give the same
    response. *)
Theorem more_roots_allow_more {host : Host} (isWindows : bool)
    (allowedRoots allowedRoots' : list string) (request : Request) :
  incl allowedRoots allowedRoots' ->
  (forall path,
      decide isWindows allowedRoots request = Normal (Allowed path) ->
      decide isWindows allowedRoots' request = Normal (Allowed path))
  /\ (incl allowedRoots' allowedRoots ->
      responseOf (fileHandler isWindows allowedRoots request)
      = responseOf (fileHandler isWindows allowedRoots' request)).
Proof.
  intros Hincl. split.
  - intros path. rewrite !decide_allowed_iff.
    intros (requestUrl & Hurl & Hne & Hres & Habs & root & Hin & Hmatch).
    exists requestUrl. repeat split; try assumption.
    exists root. split; [now apply Hincl | assumption].
  - intros Hincl'. apply response_existsb. intros realPath.
    now apply existsb_same_elements.
Qed.

Lemma more_roots_allow_more_witness :
  @decide (Posix.host Scenario.emptyDisk) false ["/srv"; "/data/app"]
    (mkRequest (Some "file:///data/app/a.png"))
  = Normal (Allowed "/data/app/a.png").
Proof.
  refine (proj1 (@more_roots_allow_more (Posix.host Scenario.emptyDisk)
                   false ["/data/app"] ["/srv"; "/data/app"]
                   (mkRequest (Some "file:///data/app/a.png")) _)
            "/data/app/a.png" _).
  - intros root [<-|[]]. right; left; reflexivity.
  - reflexivity.
Defined.

(** X12.  A root that extends another root of the list adds nothing:
    with [root'] in the list and [root] beginning with [root'] (after
    case folding, under the Windows flag), the responses with and without
    [root] are the same. *)
Theorem nested_root_is_redundant {host : Host} (isWindows : bool)
    (allowedRoots : list string) (root root' : string) (request : Request) :
  In root' allowedRoots ->
  matchesRoot isWindows root root' = true ->
  responseOf (fileHandler isWindows (root :: allowedRoots) request)
  = responseOf (fileHandler isWindows allowedRoots request).
Proof.
  intros Hin Hext. apply response_existsb. intros realPath.
  cbn [existsb].
  destruct (matchesRoot isWindows realPath root) eqn:Hm; [|reflexivity].
  cbn. symmetry. apply existsb_exists. exists root'.
  split; [assumption|]. now apply matchesRoot_transitive with root.
Qed.

Lemma nested_root_is_redundant_witness :
  responseOf (@fileHandler (Posix.host Scenario.emptyDisk) false
                ["/data/app/avatars"; "/data/app"]
                (mkRequest (Some "file:///data/app/avatars/me.png")))
  = responseOf (@fileHandler (Posix.host Scenario.emptyDisk) false
                  ["/data/app"]
                  (mkRequest (Some "file:///data/app/avatars/me.png"))).
Proof.
  refine (@nested_root_is_redundant (Posix.host Scenario.emptyDisk) false
            ["/data/app"] "/data/app/avatars" "/data/app" _ _ _).
  - left; reflexivity.
  - reflexivity.
Defined.

(** X13.  When each path getter of [./attachments] returns a path that
    begins with the user data path (after case folding, under the
    Windows flag), the handler [_createFileHandler] builds answers as the
    handler over the two roots [userDataPath] and [installPath] alone. *)
Theorem subdirectory_roots_are_redundant {host : Host}
    {attachments : Attachments} (o : FileHandlerOptions)
    (request : Request) :
  Forall (fun getter =>
            matchesRoot (fhIsWindows o) (getter (userDataPath o))
              (userDataPath o) = true)
    [getAvatarsPath; getBadgesPath; getDraftPath; getPath;
     getStickersPath; getTempPath; getUpdateCachePath] ->
  responseOf (_createFileHandler o request)
  = responseOf (fileHandler (fhIsWindows o)
                  [userDataPath o; installPath o] request).
Proof.
  intros Hext. unfold _createFileHandler, allowedRootsOf.
  apply response_existsb. intros realPath. cbn [existsb].
  destruct (matchesRoot (fhIsWindows o) realPath (userDataPath o)) eqn:Hu;
    [reflexivity|].
  assert (Hno : forall getter,
             In getter [getAvatarsPath; getBadgesPath; getDraftPath; getPath;
                        getStickersPath; getTempPath; getUpdateCachePath] ->
             matchesRoot (fhIsWindows o) realPath (getter (userDataPath o))
             = false).
  { intros getter Hin.
    destruct (matchesRoot _ realPath (getter _)) eqn:Hg; [|reflexivity].
    rewrite Forall_forall in Hext.
    rewrite (matchesRoot_transitive _ _ _ _ Hg (Hext getter Hin)) in Hu.
    discriminate. }
  rewrite !Hno by (cbn; tauto).
  cbn. now rewrite !orb_false_r.
Qed.

Lemma subdirectory_roots_are_redundant_witness :
  responseOf (@_createFileHandler (Posix.host Scenario.emptyDisk)
                Posix.attachments Scenario.options
                (mkRequest (Some "file:///data/app/stickers/s.webp")))
  = responseOf (@fileHandler (Posix.host Scenario.emptyDisk) false
                  ["/data/app"; "/opt/app"]
                  (mkRequest (Some "file:///data/app/stickers/s.webp"))).
Proof.
  refine (@subdirectory_roots_are_redundant (Posix.host Scenario.emptyDisk)
            Posix.attachments Scenario.options _ _).
  repeat constructor.
Defined.

(** X14.  An empty [userDataPath] or [installPath] opens the filter:
    the empty string is a prefix of every path, so every request whose
    URL resolves to an absolute path is allowed. *)
Theorem empty_root_allows_every_absolute_path {host : Host}
    {attachments : Attachments} (o : FileHandlerOptions)
    (requestUrl realPath : string) :
  userDataPath o = EmptyString \/ installPath o = EmptyString ->
  requestUrl <> EmptyString ->
  resolvesTo (fhIsWindows o) requestUrl realPath ->
  isAbsolute realPath = true ->
  responseOf (_createFileHandler o (mkRequest (Some requestUrl)))
  = Normal (mkResponse (Some (JsonPath realPath)) defaultStatus).
Proof.
  intros Hempty Hne Hres Habs. unfold _createFileHandler.
  rewrite (fileHandler_resolved _ _ _ realPath) by assumption.
  rewrite Habs.
  replace (existsb _ _) with true; [reflexivity|].
  symmetry. apply existsb_exists. exists EmptyString. split.
  - unfold allowedRootsOf. destruct Hempty as [<-|<-]; cbn; tauto.
  - unfold matchesRoot, caseFold. now destruct (fhIsWindows o).
Qed.

Lemma empty_root_allows_every_absolute_path_witness :
  responseOf (@_createFileHandler (Posix.host Scenario.emptyDisk)
                Posix.attachments
                (mkFileHandlerOptions "/data/app" EmptyString false)
                (mkRequest (Some "file:///etc/passwd")))
  = Normal (mkResponse (Some (JsonPath "/etc/passwd")) defaultStatus).
Proof.
  refine (@empty_root_allows_every_absolute_path
            (Posix.host Scenario.emptyDisk) Posix.attachments
            (mkFileHandlerOptions "/data/app" EmptyString false)
            "file:///etc/passwd" "/etc/passwd" _ _ _ _).
  - right; reflexivity.
  - discriminate.
  - exists "/etc/passwd". split; reflexivity.
  - reflexivity.
Defined.

(** X15.  No handler of the module ever returns a denial.
    [_disabledHandler] throws for every request, the constructor
    refusing its status -10; the file handler returns only responses of
    status 200 that carry a path, and otherwise throws the exception of
    status -10, or of status -300 when the URL is missing. *)
Theorem handlers_never_return_a_denial {host : Host} (isWindows : bool)
    (allowedRoots : list string) (request : Request) :
  _disabledHandler request = Throw (rangeError (-10))
  /\ ((exists realPath,
         responseOf (fileHandler isWindows allowedRoots request)
         = Normal (mkResponse (Some (JsonPath realPath)) 200))
      \/ responseOf (fileHandler isWindows allowedRoots request)
         = Throw (rangeError (-10))
      \/ responseOf (fileHandler isWindows allowedRoots request)
         = Throw (rangeError (-300))).
Proof.
  split; [reflexivity|].
  destruct request as [[requestUrl|]]; [|now right; right].
  destruct (String.eqb_spec requestUrl EmptyString) as [->|Hne];
    [now right; right|].
  destruct (response_cases isWindows allowedRoots requestUrl Hne)
    as [(realPath & _ & _ & _ & ->)|[-> _]].
  - left. now exists realPath.
  - right; now left.
Qed.

(** ** Letter case of the roots, UNC paths, caught exceptions *)

Lemma existsb_matchesRoot_ignoring_case (realPath : string)
    (allowedRoots allowedRoots' : list string) :
  Forall2 (fun root root' => sameIgnoringCase root root' = true)
    allowedRoots allowedRoots' ->
  existsb (matchesRoot true realPath) allowedRoots
  = existsb (matchesRoot true realPath) allowedRoots'.
Proof.
  induction 1 as [|root root' roots roots' Hsame _ IH]; [reflexivity|].
  cbn [existsb]. rewrite IH. f_equal.
  unfold matchesRoot, caseFold.
  apply sameIgnoringCase_toLowerCase in Hsame. now rewrite Hsame.
Qed.

(** X17.  Under the Windows flag the letter case in which the roots are
    written is of no account: two lists of roots that agree, root by
    root, up to letter case give the same response to every request. *)
Theorem windows_roots_letter_case_irrelevant {host : Host}
    (allowedRoots allowedRoots' : list string) (request : Request) :
  Forall2 (fun root root' => sameIgnoringCase root root' = true)
    allowedRoots allowedRoots' ->
  responseOf (fileHandler true allowedRoots request)
  = responseOf (fileHandler true allowedRoots' request).
Proof.
  intros Hsame. apply response_existsb. intros realPath.
  now apply existsb_matchesRoot_ignoring_case.
Qed.

Lemma windows_roots_letter_case_irrelevant_witness :
  responseOf (@fileHandler (Posix.host Scenario.emptyDisk) true
                ["/Users/Bob/Signal"]
                (mkRequest (Some "file:////Users/bob/signal/x.png")))
  = responseOf (@fileHandler (Posix.host Scenario.emptyDisk) true
                  ["/USERS/BOB/SIGNAL"]
                  (mkRequest (Some "file:////Users/bob/signal/x.png"))).
Proof.
  refine (@windows_roots_letter_case_irrelevant
            (Posix.host Scenario.emptyDisk)
            ["/Users/Bob/Signal"] ["/USERS/BOB/SIGNAL"] _ _).
  repeat constructor.
Defined.

(** X18.  For a decoded URL that begins with [//] nothing is removed
    from the front, so the Windows flag plays no part, and the path
    still begins with [//]. *)
Theorem unc_url_keeps_its_beginning {host : Host}
    (targetUrl decoded : string) (options : option UrlToPathOptions) :
  decodeURIComponent targetUrl = Normal decoded ->
  startsWith decoded "//" = true ->
  (exists rest, _urlToPath targetUrl options = Normal ("//" ++ rest))
  /\ _urlToPath targetUrl options = _urlToPath targetUrl None.
Proof.
  intros Hd Hs.
  rewrite !(urlToPath_decoded _ _ _ Hd). unfold specUrlToPath.
  rewrite beginsWithTwoSlashes_startsWith, Hs. split; [|reflexivity].
  apply startsWith_split in Hs as [rest ->]. cbn. eexists. reflexivity.
Qed.

Lemma unc_url_keeps_its_beginning_witness :
  @_urlToPath (Posix.host Scenario.emptyDisk) "//share/home/a.png#top"
    (Some (mkOptions true))
  = @_urlToPath (Posix.host Scenario.emptyDisk) "//share/home/a.png#top"
      None.
Proof.
  refine (proj2 (@unc_url_keeps_its_beginning (Posix.host Scenario.emptyDisk)
                   "//share/home/a.png#top" "//share/home/a.png#top"
                   (Some (mkOptions true)) _ _)); reflexivity.
Defined.

(** X19.  An exception thrown by [decodeURIComponent], or by
    [realpathSync] on a path that exists, is caught and its message
    written, [no error message] when it has none; the [catch] clause
    then throws itself, the constructor refusing its status -10, so the
    handler ends with that exception and not with the one it caught. *)
Theorem thrown_errors_are_logged_then_rethrown {host : Host}
    (isWindows : bool) (allowedRoots : list string) (requestUrl : string)
    (err : Thrown) :
  requestUrl <> EmptyString ->
  decodeURIComponent requestUrl = Throw err
  \/ (exists targetPath,
        _urlToPath requestUrl (Some (mkOptions isWindows)) = Normal targetPath
        /\ existsSync (normalize targetPath) = true
        /\ realpathSync (normalize targetPath) = Throw err) ->
  fileHandler isWindows allowedRoots (mkRequest (Some requestUrl))
  = (["Warning: denying request because of an error: "
        ++ match message err with
           | Some m => m
           | None => "no error message"
           end],
     Throw (rangeError (-10))).
Proof.
  intros Hne Hthrow. apply fileHandler_thrown; [assumption|].
  destruct Hthrow as [Hd|(targetPath & Hurl & Hex & Hreal)].
  - apply tryBlock_decode_throws. unfold _urlToPath. now rewrite Hd.
  - apply tryBlock_canonicalize_throws with targetPath; [assumption|].
    unfold canonicalize. now rewrite Hex.
Qed.

Lemma thrown_errors_are_logged_then_rethrown_witness :
  @fileHandler (Posix.host Scenario.emptyDisk) false Scenario.roots
    (mkRequest (Some "file:///data/app/100%"))
  = (["Warning: denying request because of an error: URI malformed"],
     Throw (Posix.rangeError (-10))).
Proof.
  refine (@thrown_errors_are_logged_then_rethrown
            (Posix.host Scenario.emptyDisk)
            false Scenario.roots "file:///data/app/100%"
            Posix.uriMalformed _ _).
  - discriminate.
  - left; reflexivity.
Defined.
